(** * Neptrax contact form: submission validation and e-mail dispatch

    A shallow embedding of the two TypeScript units of the repository,

    - [supabase/functions/send-contact-email/index.ts], the Deno request
      handler (module [Handler]), and
    - the React [Contact] component with [validateForm] and [handleSubmit]
      (module [Form]),

    together with the small part of the JavaScript run time they rely on
    (module [JS]: strings as UTF-16 code units, truthiness, [trim], and the
    regular expression engine restricted to the constructs of [emailRegex]),
    and a free monad for the effects of the two units (module [Eff]). *)

From Stdlib Require Import List String Ascii NArith Arith Bool Lia.
Import ListNotations.

Local Open Scope string_scope.
Local Open Scope list_scope.

Set Implicit Arguments.

(* ------------------------------------------------------------------ *)
(** * The JavaScript values the code manipulates *)
(* ------------------------------------------------------------------ *)

Module JS.

(** A JavaScript string is a sequence of UTF-16 code units; [length] counts
    code units, and a regular expression without the [u] flag matches code
    unit by code unit. *)
Definition code_unit := N.
Definition jsstring := list code_unit.

(** An ASCII literal of the source text as a JavaScript string. *)
Definition str (s : string) : jsstring :=
  map N_of_ascii (list_ascii_of_string s).

Definition eqb (a b : jsstring) : bool :=
  if list_eq_dec N.eq_dec a b then true else false.

(** A property read from a parsed JSON object that is typed [string] or
    [string | undefined]: [None] is [undefined] (the key is absent, or
    holds [null], which every use below treats alike). *)
Definition value := option jsstring.

(** ToBoolean: [undefined] and the empty string are falsy, every other
    string, a string of blanks included, is truthy. *)
Definition truthy (v : value) : bool :=
  match v with
  | Some (_ :: _) => true
  | _ => false
  end.

(** ToString, as applied by template literals and by [RegExp.prototype.test]. *)
Definition to_string (v : value) : jsstring :=
  match v with
  | Some s => s
  | None => str "undefined"
  end.

(** [a || b] on values. *)
Definition or_else (v : value) (d : jsstring) : jsstring :=
  if truthy v then to_string v else d.

(** The code units matched by [\s] and stripped by [trim]: WhiteSpace and
    LineTerminator of ECMA-262. *)
Definition is_white_space (c : code_unit) : bool :=
  ((9 <=? c) && (c <=? 13)             (* TAB LF VT FF CR *)
   || (c =? 32) || (c =? 160)          (* SP, NBSP *)
   || (c =? 5760)                      (* U+1680 *)
   || ((8192 <=? c) && (c <=? 8202))   (* U+2000 .. U+200A *)
   || (c =? 8232) || (c =? 8233)       (* U+2028, U+2029 *)
   || (c =? 8239) || (c =? 8287)       (* U+202F, U+205F *)
   || (c =? 12288) || (c =? 65279))%N. (* U+3000, U+FEFF *)

Fixpoint trimStart (s : jsstring) : jsstring :=
  match s with
  | c :: s' => if is_white_space c then trimStart s' else s
  | [] => []
  end.

Definition trimEnd (s : jsstring) : jsstring := rev (trimStart (rev s)).

Definition trim (s : jsstring) : jsstring := trimEnd (trimStart s).

(** ** Regular expressions

    The fragment of the pattern language that [emailRegex] is written in: a
    pattern anchored by [^] and [$] that is a sequence of atoms, each taken
    once or quantified by [+]; an atom is a literal character or a negated
    class [[^...]] whose members are characters and the escape [\s]. *)

Inductive class_member :=
| ClassSpace                       (* \s *)
| ClassChar (c : code_unit).

Inductive atom :=
| Lit (c : code_unit)
| NegClass (members : list class_member).

Inductive quantifier := Once | OneOrMore.

Definition pattern := list (atom * quantifier).

Definition member_accepts (m : class_member) (c : code_unit) : bool :=
  match m with
  | ClassSpace => is_white_space c
  | ClassChar d => (c =? d)%N
  end.

Definition accepts (a : atom) (c : code_unit) : bool :=
  match a with
  | Lit d => (c =? d)%N
  | NegClass ms => negb (existsb (fun m => member_accepts m c) ms)
  end.

(** The backtracking matcher.  [match_plus] is the greedy [+]: it consumes
    one accepted code unit, first tries to consume more, and falls back to
    the continuation [k], the matcher of the rest of the pattern. *)
Fixpoint match_plus (acc : code_unit -> bool) (k : jsstring -> bool)
         (s : jsstring) : bool :=
  match s with
  | [] => false
  | c :: s' => acc c && (match_plus acc k s' || k s')
  end.

(** [match_here p s]: the pattern [p], followed by [$], matches at the
    start of [s]. *)
Fixpoint match_here (p : pattern) (s : jsstring) : bool :=
  match p with
  | [] => match s with [] => true | _ => false end
  | (a, Once) :: p' =>
      match s with
      | c :: s' => accepts a c && match_here p' s'
      | [] => false
      end
  | (a, OneOrMore) :: p' => match_plus (accepts a) (match_here p') s
  end.

(** [re.test(s)] for a pattern [^p$] without flags: [^] only holds at
    index 0, so the search over start positions reduces to one attempt. *)
Definition test (p : pattern) (s : jsstring) : bool := match_here p s.

(** Declarative reading of a pattern: the strings it denotes. *)
Inductive Matches : pattern -> jsstring -> Prop :=
| Matches_end : Matches [] []
| Matches_once a p c s :
    accepts a c = true -> Matches p s -> Matches ((a, Once) :: p) (c :: s)
| Matches_plus a p w s :
    w <> [] -> forallb (accepts a) w = true -> Matches p s ->
    Matches ((a, OneOrMore) :: p) (w ++ s).

Definition AT : code_unit := 64%N.     (* @ *)
Definition DOT : code_unit := 46%N.    (* . *)

(** [/^[^\s@]+@[^\s@]+\.[^\s@]+$/], the pattern of both units. *)
Definition emailRegex : pattern :=
  [ (NegClass [ClassSpace; ClassChar AT], OneOrMore);
    (Lit AT, Once);
    (NegClass [ClassSpace; ClassChar AT], OneOrMore);
    (Lit DOT, Once);
    (NegClass [ClassSpace; ClassChar AT], OneOrMore) ].

(** A code unit admitted by [[^\s@]]. *)
Definition plain (c : code_unit) : bool :=
  negb (is_white_space c) && negb (c =? AT)%N.

(** ** [encodeURIComponent]

    The string is read as UTF-16; a surrogate code unit that is not half of
    a pair makes the call throw [URIError].  Every code point outside the
    unreserved set is written as the escaped bytes of its UTF-8 form. *)

Definition is_high_surrogate (c : code_unit) : bool :=
  ((55296 <=? c) && (c <=? 56319))%N.      (* U+D800 .. U+DBFF *)

Definition is_low_surrogate (c : code_unit) : bool :=
  ((56320 <=? c) && (c <=? 57343))%N.      (* U+DC00 .. U+DFFF *)

(** The code points of a string, [None] when it holds a lone surrogate. *)
Fixpoint code_points (s : jsstring) : option (list N) :=
  match s with
  | [] => Some []
  | c :: s' =>
      if is_low_surrogate c then None
      else if is_high_surrogate c then
        match s' with
        | d :: s'' =>
            if is_low_surrogate d
            then option_map
                   (cons ((c - 55296) * 1024 + (d - 56320) + 65536)%N)
                   (code_points s'')
            else None
        | [] => None
        end
      else option_map (cons c) (code_points s')
  end.

Definition utf8 (cp : N) : list N :=
  (if cp <? 128 then [cp]
   else if cp <? 2048 then [192 + cp / 64; 128 + cp mod 64]
   else if cp <? 65536 then
     [224 + cp / 4096; 128 + (cp / 64) mod 64; 128 + cp mod 64]
   else
     [240 + cp / 262144; 128 + (cp / 4096) mod 64; 128 + (cp / 64) mod 64;
      128 + cp mod 64])%N.

Definition hex_digit (n : N) : code_unit :=
  (if n <? 10 then 48 + n else 55 + n)%N.  (* 0-9, A-F *)

Definition percent (byte : N) : jsstring :=
  [37%N; hex_digit (byte / 16); hex_digit (byte mod 16)].

(** [A-Z a-z 0-9 - _ . ! ~ * ' ( )]. *)
Definition uri_unreserved (c : N) : bool :=
  ((65 <=? c) && (c <=? 90) || (97 <=? c) && (c <=? 122)
   || (48 <=? c) && (c <=? 57)
   || (c =? 45) || (c =? 95) || (c =? 46) || (c =? 33) || (c =? 126)
   || (c =? 42) || (c =? 39) || (c =? 40) || (c =? 41))%N.

(** The call returns the encoded text ([inr]) or throws ([inl], the
    message of the [URIError]). *)
Definition encodeURIComponent (s : jsstring) : jsstring + jsstring :=
  match code_points s with
  | None => inl (str "URI malformed")
  | Some cps =>
      inr (flat_map (fun cp => if uri_unreserved cp then [cp]
                               else flat_map percent (utf8 cp)) cps)
  end.

(** The strings of the shape [local@domain.tld]: three non-empty parts free
    of whitespace and of [@], joined by one [@] and one [.]. *)
Definition well_formed_email (e : jsstring) : Prop :=
  exists l d t,
    e = l ++ AT :: d ++ DOT :: t /\
    l <> [] /\ d <> [] /\ t <> [] /\
    forallb plain l = true /\ forallb plain d = true /\
    forallb plain t = true.

End JS.

(* ------------------------------------------------------------------ *)
(** * Effects: a free monad over the calls a unit makes to its host *)
(* ------------------------------------------------------------------ *)

Module Eff.

(** The message of a thrown [Error]. *)
Definition exn := JS.jsstring.

(** A program over the event signature [E]: it returns, throws, or makes
    the call [e] and continues with the host's answer. *)
Inductive Prog (E : Type -> Type) (A : Type) : Type :=
| Ret (a : A)
| Throw (err : exn)
| Vis (X : Type) (e : E X) (k : X -> Prog E A).

Arguments Ret {E A} a.
Arguments Throw {E A} err.
Arguments Vis {E A X} e k.

Fixpoint bind {E A B} (p : Prog E A) (f : A -> Prog E B) : Prog E B :=
  match p with
  | Ret a => f a
  | Throw err => Throw err
  | Vis e k => Vis e (fun x => bind (k x) f)
  end.

Definition trigger {E X} (e : E X) : Prog E X := Vis e (fun x => Ret x).

(** [try { p } catch (error) { h error }]. *)
Fixpoint try_catch {E A} (p : Prog E A) (h : exn -> Prog E A) : Prog E A :=
  match p with
  | Ret a => Ret a
  | Throw err => h err
  | Vis e k => Vis e (fun x => try_catch (k x) h)
  end.

(** [await] of a promise that has settled: a rejection is thrown. *)
Definition await {E A} (r : exn + A) : Prog E A :=
  match r with
  | inl err => Throw err
  | inr a => Ret a
  end.

(** One call made to the host. *)
Definition event (E : Type -> Type) : Type := {X : Type & E X}.

(** A host answers every call. *)
Definition host (E : Type -> Type) : Type := forall X, E X -> X.

(** Running a program against a host: the calls made, in order, and the
    outcome. *)
Fixpoint run {E A} (w : host E) (p : Prog E A) : list (event E) * (exn + A) :=
  match p with
  | Ret a => ([], inr a)
  | Throw err => ([], inl err)
  | Vis e k =>
      let (t, r) := run w (k (w _ e)) in
      (existT _ _ e :: t, r)
  end.

Definition trace {E A} (w : host E) (p : Prog E A) : list (event E) :=
  fst (run w p).

Definition outcome {E A} (w : host E) (p : Prog E A) : exn + A :=
  snd (run w p).

(** [leaves P Q p]: on every path through [p], whatever the host answers,
    a returned value satisfies [P] and a thrown error satisfies [Q]. *)
Fixpoint leaves {E A} (P : A -> Prop) (Q : exn -> Prop) (p : Prog E A)
  : Prop :=
  match p with
  | Ret a => P a
  | Throw err => Q err
  | Vis e k => forall x, leaves P Q (k x)
  end.

End Eff.

Declare Scope prog_scope.
Delimit Scope prog_scope with prog.
Notation "x <- c1 ;; c2" := (Eff.bind c1 (fun x => c2))
  (at level 61, c1 at next level, right associativity) : prog_scope.
Notation "c1 ;; c2" := (Eff.bind c1 (fun _ => c2))
  (at level 61, right associativity) : prog_scope.

(* ------------------------------------------------------------------ *)
(** * The dispatch handler, [send-contact-email/index.ts] *)
(* ------------------------------------------------------------------ *)

Module Handler.
Import JS Eff.

(** A JavaScript object literal: its own keys in insertion order. *)
Definition headers := list (string * jsstring).

Definition get (h : headers) (key : string) : option jsstring :=
  match find (fun kv => String.eqb (fst kv) key) h with
  | Some kv => Some (snd kv)
  | None => None
  end.

Definition corsHeaders : headers :=
  [ ("Access-Control-Allow-Origin", str "*");
    ("Access-Control-Allow-Methods", str "GET, POST, PUT, DELETE, OPTIONS");
    ("Access-Control-Allow-Headers",
     str "Content-Type, Authorization, X-Client-Info, Apikey") ].

(** [interface ContactFormData], as destructured from the parsed body. *)
Record ContactFormData := {
  name : value;
  email : value;
  subject : value;
  message : value
}.

(** The request: its method, and how [req.json()] settles (a body that is
    not JSON, or not destructurable, rejects with the error's message). *)
Record Request := {
  method : jsstring;
  json : exn + ContactFormData
}.

(** [Deno.env]. *)
Record Env := {
  RESEND_API_KEY : value;
  RECEIVING_EMAIL : value
}.

(** The values of a JSON document the handler reads or writes: strings,
    booleans and [null]. *)
Inductive jval :=
| JStr (s : jsstring)
| JBool (b : bool)
| JNull.

(** A member read from a parsed JSON object: [None] is [undefined], the
    member being absent. *)
Definition member := option jval.

(** ToBoolean on a member. *)
Definition member_truthy (m : member) : bool :=
  match m with
  | Some (JStr (_ :: _)) => true
  | Some (JBool b) => b
  | Some (JStr []) | Some JNull | None => false
  end.

(** [JSON.stringify] of an object literal, kept as its members: a member
    whose value is [undefined] is left out. *)
Definition stringify (members : list (string * option jval))
  : list (string * jval) :=
  flat_map (fun kv => match snd kv with
                      | Some v => [(fst kv, v)]
                      | None => []
                      end) members.

Record Response := {
  status : nat;
  resp_headers : headers;
  body : option (list (string * jval))
}.

(** The three CORS headers are set, to the values of [corsHeaders]. *)
Definition carries_cors (r : Response) : Prop :=
  get (resp_headers r) "Access-Control-Allow-Origin" = Some (str "*") /\
  get (resp_headers r) "Access-Control-Allow-Methods"
    = Some (str "GET, POST, PUT, DELETE, OPTIONS") /\
  get (resp_headers r) "Access-Control-Allow-Headers"
    = Some (str "Content-Type, Authorization, X-Client-Info, Apikey").

(** [new Response(JSON.stringify(obj), { status, headers: {...corsHeaders,
    "Content-Type": "application/json"} })]. *)
Definition json_response (st : nat) (members : list (string * option jval))
  : Response :=
  {| status := st;
     resp_headers := corsHeaders ++ [("Content-Type", str "application/json")];
     body := Some (stringify members) |}.

(** The HTML document of the mail.  Its markup is constant text; the model
    keeps the values the template literal interpolates. *)
Record Html := {
  html_timestamp : jsstring;
  html_name : jsstring;
  html_email : jsstring;
  html_subject_row : option jsstring;  (* the SUBJECT row, when subject is truthy *)
  html_message : jsstring;
  html_reply_subject : jsstring
    (* what encodeURIComponent(subject || 'Your inquiry') returned *)
}.

(** The body posted to the delivery provider. *)
Record Mail := {
  from : jsstring;
  to : list jsstring;
  reply_to : jsstring;
  mail_subject : jsstring;
  html : Html
}.

Record FetchInit := {
  fetch_method : string;
  fetch_headers : headers;
  fetch_body : Mail
}.

(** What the provider's answer parses to: [null], or a value of which the
    handler reads the members [message] and [id]. *)
Inductive ResendData :=
| DataNull
| DataObject (message : member) (id : member).

Record FetchResponse := {
  ok : bool;
  response_json : exn + ResendData
}.

(** Arguments of the three [console.error] calls. *)
Inductive LogEntry :=
| LogKeyNotSet                          (* "RESEND_API_KEY is not set" *)
| LogResendError (data : ResendData)    (* "Resend API error:", resendData *)
| LogProcessing (error : exn).          (* "Error processing request:", error *)

Inductive HandlerE : Type -> Type :=
| ConsoleError (entry : LogEntry) : HandlerE unit
| Now : HandlerE jsstring    (* new Date().toLocaleString('en-US', ...) *)
| Fetch (url : string) (init : FetchInit) : HandlerE (exn + FetchResponse).

Definition is_fetch (ev : event HandlerE) : bool :=
  match projT2 ev with
  | Fetch _ _ => true
  | _ => false
  end.

(** The second arguments of the calls to [fetch] in a trace, in order. *)
Definition posted (t : list (event HandlerE)) : list FetchInit :=
  flat_map (fun ev => match projT2 ev with
                      | Fetch _ init => [init]
                      | _ => []
                      end) t.

(** Property access on the provider's answer: reading from [null] throws. *)
Definition data_message (d : ResendData) : Prog HandlerE member :=
  match d with
  | DataNull => Throw (str "Cannot read properties of null (reading 'message')")
  | DataObject m _ => Ret m
  end.

Definition data_id (d : ResendData) : Prog HandlerE member :=
  match d with
  | DataNull => Throw (str "Cannot read properties of null (reading 'id')")
  | DataObject _ i => Ret i
  end.

(** [message.trim()]: the receiver must be a string. *)
Definition call_trim (v : value) : Prog HandlerE jsstring :=
  match v with
  | Some s => Ret (trim s)
  | None => Throw (str "Cannot read properties of undefined (reading 'trim')")
  end.

(** [resendData.message || "Unknown error"]. *)
Definition message_or_unknown (m : member) : jval :=
  match m with
  | Some v => if member_truthy m then v else JStr (str "Unknown error")
  | None => JStr (str "Unknown error")
  end.

(** [emailSubject], lines 120-122. *)
Definition emailSubject (d : ContactFormData) : jsstring :=
  if truthy (subject d)
  then str "Contact Form: " ++ to_string (subject d)
  else str "New Contact Form Submission from " ++ to_string (name d).

(** [encodeURIComponent(subject || 'Your inquiry')], line 210. *)
Definition reply_subject (d : ContactFormData) : exn + jsstring :=
  encodeURIComponent (or_else (subject d) (str "Your inquiry")).

(** The document, given what the call of line 210 returned. *)
Definition template (d : ContactFormData) (timestamp reply : jsstring)
  : Html :=
  {| html_timestamp := timestamp;
     html_name := to_string (name d);
     html_email := to_string (email d);
     html_subject_row :=
       if truthy (subject d) then Some (to_string (subject d)) else None;
     html_message := to_string (message d);
     html_reply_subject := reply |}.

(** Evaluating the template literal of lines 136-231: it throws when the
    call of line 210 does. *)
Definition render (d : ContactFormData) (timestamp : jsstring) : exn + Html :=
  match reply_subject d with
  | inl err => inl err
  | inr reply => inr (template d timestamp reply)
  end.

(** The mail can be built: the call of line 210 returns. *)
Definition renders (d : ContactFormData) : bool :=
  match reply_subject d with
  | inr _ => true
  | inl _ => false
  end.

Definition mail (env : Env) (d : ContactFormData) (document : Html) : Mail :=
  {| from := str "Neptrax Contact Form <onboarding@resend.dev>";
     to := [or_else (RECEIVING_EMAIL env) (str "info@neptrax.com")];
     reply_to := to_string (email d);
     mail_subject := emailSubject d;
     html := document |}.

Definition resend_request (env : Env) (d : ContactFormData)
           (document : Html) : FetchInit :=
  {| fetch_method := "POST";
     fetch_headers :=
       [ ("Content-Type", str "application/json");
         ("Authorization", str "Bearer " ++ to_string (RESEND_API_KEY env)) ];
     fetch_body := mail env d document |}.

(** The second argument of the call to the delivery provider for the
    submission [d] at [timestamp].  A run reaches the call only when the
    mail could be built, and the document is then the one [render] gave. *)
Definition dispatch_init (env : Env) (d : ContactFormData)
           (timestamp : jsstring) : FetchInit :=
  resend_request env d
    (template d timestamp
       match reply_subject d with
       | inr reply => reply
       | inl _ => []
       end).

(** The call to the delivery provider, as it shows in a trace. *)
Definition dispatch (env : Env) (d : ContactFormData) (timestamp : jsstring)
  : event HandlerE :=
  existT _ _ (Fetch "https://api.resend.com/emails"
                    (dispatch_init env d timestamp)).

Local Open Scope prog_scope.

(** The body of the [try] block, lines 25-267. *)
Definition serve_try (env : Env) (req : Request) : Prog HandlerE Response :=
  if negb (eqb (method req) (str "POST")) then
    Ret (json_response 405 [("error", Some (JStr (str "Method not allowed")))])
  else
    d <- await (json req) ;;
    (* Validate required fields *)
    if negb (truthy (name d)) || negb (truthy (email d))
       || negb (truthy (message d)) then
      Ret (json_response 400
             [ ("error", Some (JStr (str "Missing required fields")));
               ("details",
                Some (JStr (str "name, email, and message are all required"))) ])
    (* Validate email format *)
    else if negb (test emailRegex (to_string (email d))) then
      Ret (json_response 400
             [ ("error", Some (JStr (str "Invalid email format"))) ])
    else
      (* Validate message length (minimum 10 characters) *)
      trimmed <- call_trim (message d) ;;
      if (List.length trimmed <? 10)%nat then
        Ret (json_response 400
               [ ("error", Some (JStr (str "Message too short")));
                 ("details",
                  Some (JStr (str "Message must be at least 10 characters long"))) ])
      else if negb (truthy (RESEND_API_KEY env)) then
        trigger (ConsoleError LogKeyNotSet) ;;
        Ret (json_response 500
               [ ("error", Some (JStr (str "Server configuration error"))) ])
      else
        timestamp <- trigger Now ;;
        (* the arguments of fetch are evaluated before the call *)
        document <- await (render d timestamp) ;;
        settled <- trigger (Fetch "https://api.resend.com/emails"
                                  (resend_request env d document)) ;;
        resendResponse <- await settled ;;
        resendData <- await (response_json resendResponse) ;;
        if negb (ok resendResponse) then
          trigger (ConsoleError (LogResendError resendData)) ;;
          m <- data_message resendData ;;
          Ret (json_response 500
                 [ ("error", Some (JStr (str "Failed to send email")));
                   ("details", Some (message_or_unknown m)) ])
        else
          i <- data_id resendData ;;
          Ret (json_response 200
                 [ ("success", Some (JBool true));
                   ("message", Some (JStr (str "Email sent successfully")));
                   ("id", i) ]).

(** The [catch] block, lines 269-284. *)
Definition serve_catch (error : exn) : Prog HandlerE Response :=
  trigger (ConsoleError (LogProcessing error)) ;;
  Ret (json_response 500
         [ ("error", Some (JStr (str "Internal server error")));
           ("details", Some (JStr error)) ]).

(** The function given to [Deno.serve]. *)
Definition serve (env : Env) (req : Request) : Prog HandlerE Response :=
  if eqb (method req) (str "OPTIONS") then
    Ret {| status := 200; resp_headers := corsHeaders; body := None |}
  else
    try_catch (serve_try env req) serve_catch.

(** A JSON response: the content type is set, there is a body, and the body
    holds [success: true] under status 200 and an [error] string under the
    statuses 400, 405 and 500. *)
Definition is_json_reply (r : Response) : Prop :=
  get (resp_headers r) "Content-Type" = Some (str "application/json") /\
  exists members,
    body r = Some members /\
    ((status r = 200 /\ In ("success", JBool true) members) \/
     ((status r = 400 \/ status r = 405 \/ status r = 500) /\
      exists e, In ("error", JStr e) members)).

(** The body is an object whose first member is a non-empty [error]
    string. *)
Definition error_first (r : Response) : Prop :=
  exists e members,
    body r = Some (("error", JStr e) :: members) /\ e <> [].

(** Lines 235-267 on their own: the rest of the [try] block once the call
    to the provider has settled as [settled]. *)
Definition relay (settled : exn + FetchResponse) : Prog HandlerE Response :=
  resendResponse <- await settled ;;
  resendData <- await (response_json resendResponse) ;;
  if negb (ok resendResponse) then
    trigger (ConsoleError (LogResendError resendData)) ;;
    m <- data_message resendData ;;
    Ret (json_response 500
           [ ("error", Some (JStr (str "Failed to send email")));
             ("details", Some (message_or_unknown m)) ])
  else
    i <- data_id resendData ;;
    Ret (json_response 200
           [ ("success", Some (JBool true));
             ("message", Some (JStr (str "Email sent successfully")));
             ("id", i) ]).

(** How the host [w] settles the call that dispatches [d]. *)
Definition dispatch_answer (w : host HandlerE) (env : Env)
           (d : ContactFormData) : exn + FetchResponse :=
  w _ (Fetch "https://api.resend.com/emails"
             (dispatch_init env d (w _ Now))).

End Handler.

(* ------------------------------------------------------------------ *)
(** * The submission form, the [Contact] component *)
(* ------------------------------------------------------------------ *)

Module Form.
Import JS Eff.

(** [formData]: the four controlled inputs, always strings. *)
Record FormData := {
  name : jsstring;
  email : jsstring;
  subject : jsstring;
  message : jsstring
}.

Inductive StatusType := success | error.

Record SubmitStatus := {
  type : option StatusType;           (* null when no status is shown *)
  status_message : jsstring
}.

(** [{ email?: string; message?: string }]. *)
Record ValidationErrors := {
  email_error : option jsstring;
  message_error : option jsstring
}.

(** The component's four [useState] cells. *)
Record State := {
  formData : FormData;
  isSubmitting : bool;
  submitStatus : SubmitStatus;
  validationErrors : ValidationErrors
}.

Definition setFormData (v : FormData) (st : State) : State :=
  {| formData := v; isSubmitting := isSubmitting st;
     submitStatus := submitStatus st; validationErrors := validationErrors st |}.

Definition setIsSubmitting (v : bool) (st : State) : State :=
  {| formData := formData st; isSubmitting := v;
     submitStatus := submitStatus st; validationErrors := validationErrors st |}.

Definition setSubmitStatus (v : SubmitStatus) (st : State) : State :=
  {| formData := formData st; isSubmitting := isSubmitting st;
     submitStatus := v; validationErrors := validationErrors st |}.

Definition setValidationErrors (v : ValidationErrors) (st : State) : State :=
  {| formData := formData st; isSubmitting := isSubmitting st;
     submitStatus := submitStatus st; validationErrors := v |}.

Definition no_errors : ValidationErrors :=
  {| email_error := None; message_error := None |}.

(** [Object.keys(errors).length]. *)
Definition keys_length (e : ValidationErrors) : nat :=
  (match email_error e with Some _ => 1 | None => 0 end)
  + (match message_error e with Some _ => 1 | None => 0 end).

(** [validateForm], lines 25-41: the verdict and the component state after
    [setValidationErrors(errors)]. *)
Definition validateForm (st : State) : bool * State :=
  let errors := no_errors in
  (* Email validation *)
  let errors :=
    if truthy (Some (email (formData st)))
       && negb (test emailRegex (email (formData st)))
    then {| email_error := Some (str "Please enter a valid email address");
            message_error := message_error errors |}
    else errors in
  (* Message validation (minimum 10 characters) *)
  let errors :=
    if truthy (Some (message (formData st)))
       && (List.length (trim (message (formData st))) <? 10)%nat
    then {| email_error := email_error errors;
            message_error :=
              Some (str "Message must be at least 10 characters long") |}
    else errors in
  (Nat.eqb (keys_length errors) 0, setValidationErrors errors st).

(** [import.meta.env]. *)
Record ImportMetaEnv := {
  VITE_SUPABASE_URL : value;
  VITE_SUPABASE_ANON_KEY : value
}.

Record FetchInit := {
  fetch_method : string;
  fetch_headers : list (string * jsstring);
  fetch_body : FormData                 (* JSON.stringify(formData) *)
}.

(** What the endpoint's answer parses to; the form reads [error]. *)
Inductive ResponseData :=
| DataNull
| DataObject (error_member : value).

Record FetchResponse := {
  ok : bool;
  response_json : exn + ResponseData
}.

Inductive FormE : Type -> Type :=
| PreventDefault : FormE unit
| Fetch (url : jsstring) (init : FetchInit) : FormE (exn + FetchResponse).

Definition is_fetch (ev : event FormE) : bool :=
  match projT2 ev with
  | Fetch _ _ => true
  | _ => false
  end.

Definition data_error (d : ResponseData) : Prog FormE value :=
  match d with
  | DataNull => Throw (str "Cannot read properties of null (reading 'error')")
  | DataObject e => Ret e
  end.

Definition apiUrl (env : ImportMetaEnv) : jsstring :=
  to_string (VITE_SUPABASE_URL env) ++ str "/functions/v1/send-contact-email".

Definition post (env : ImportMetaEnv) (data : FormData) : FetchInit :=
  {| fetch_method := "POST";
     fetch_headers :=
       [ ("Content-Type", str "application/json");
         ("Authorization",
          str "Bearer " ++ to_string (VITE_SUPABASE_ANON_KEY env)) ];
     fetch_body := data |}.

Local Open Scope prog_scope.

(** [handleSubmit], lines 43-93, from the state it closes over to the state
    once every queued update has been applied. *)
Definition handleSubmit (env : ImportMetaEnv) (st0 : State)
  : Prog FormE State :=
  trigger PreventDefault ;;
  let (valid, st) := validateForm st0 in
  (* Validate form before submission *)
  if negb valid then
    Ret (setSubmitStatus
           {| type := Some error;
              status_message :=
                str "Please fix the validation errors before submitting." |}
           st)
  else
    let st := setIsSubmitting true st in
    let st := setSubmitStatus {| type := None; status_message := [] |} st in
    st' <- try_catch
             (settled <- trigger (Fetch (apiUrl env) (post env (formData st0))) ;;
              response <- await settled ;;
              data <- await (response_json response) ;;
              if ok response then
                Ret (setValidationErrors no_errors
                       (setFormData
                          {| name := []; email := []; subject := [];
                             message := [] |}
                          (setSubmitStatus
                             {| type := Some success;
                                status_message :=
                                  str "Thank you for your message! We will get back to you soon." |}
                             st)))
              else
                e <- data_error data ;;
                Ret (setSubmitStatus
                       {| type := Some error;
                          status_message :=
                            or_else e
                              (str "Failed to send message. Please try again.") |}
                       st))
             (fun _ =>
                Ret (setSubmitStatus
                       {| type := Some error;
                          status_message :=
                            str "Network error. Please check your connection and try again." |}
                       st)) ;;
    (* finally *)
    Ret (setIsSubmitting false st').

(** Lines 70-92 on their own: the rest of [handleSubmit] once its call has
    settled as [settled], from the state [st] that the updates made before
    the call lead to. *)
Definition settle (st : State) (settled : exn + FetchResponse)
  : Prog FormE State :=
  st' <- try_catch
           (response <- await settled ;;
            data <- await (response_json response) ;;
            if ok response then
              Ret (setValidationErrors no_errors
                     (setFormData
                        {| name := []; email := []; subject := [];
                           message := [] |}
                        (setSubmitStatus
                           {| type := Some success;
                              status_message :=
                                str "Thank you for your message! We will get back to you soon." |}
                           st)))
            else
              e <- data_error data ;;
              Ret (setSubmitStatus
                     {| type := Some error;
                        status_message :=
                          or_else e
                            (str "Failed to send message. Please try again.") |}
                     st))
           (fun _ =>
              Ret (setSubmitStatus
                     {| type := Some error;
                        status_message :=
                          str "Network error. Please check your connection and try again." |}
                     st)) ;;
  Ret (setIsSubmitting false st').

(** The four inputs [handleChange] is attached to, by their [name]
    attribute: the [name] that [e.target] reports. *)
Inductive Field := FName | FEmail | FSubject | FMessage.

(** [formData[name]]. *)
Definition field (f : Field) (fd : FormData) : jsstring :=
  match f with
  | FName => name fd
  | FEmail => email fd
  | FSubject => subject fd
  | FMessage => message fd
  end.

(** [{ ...formData, [name]: value }]. *)
Definition set_field (f : Field) (v : jsstring) (fd : FormData) : FormData :=
  match f with
  | FName => {| name := v; email := email fd; subject := subject fd;
                message := message fd |}
  | FEmail => {| name := name fd; email := v; subject := subject fd;
                 message := message fd |}
  | FSubject => {| name := name fd; email := email fd; subject := v;
                   message := message fd |}
  | FMessage => {| name := name fd; email := email fd; subject := subject fd;
                   message := v |}
  end.

(** [validationErrors[name]]: the mapping has no entry for the name and the
    subject. *)
Definition error_of (f : Field) (e : ValidationErrors) : value :=
  match f with
  | FEmail => email_error e
  | FMessage => message_error e
  | FName | FSubject => None
  end.

(** [{ ...validationErrors, [name]: undefined }].  A key set to [undefined]
    reads as an absent one wherever the component reads the mapping. *)
Definition clear_error (f : Field) (e : ValidationErrors) : ValidationErrors :=
  match f with
  | FEmail => {| email_error := None; message_error := message_error e |}
  | FMessage => {| email_error := email_error e; message_error := None |}
  | FName | FSubject => e
  end.

(** [handleChange], lines 95-109, for the event of input [f] holding [v]. *)
Definition handleChange (f : Field) (v : jsstring) (st : State) : State :=
  let st' := setFormData (set_field f v (formData st)) st in
  (* Clear validation error for this field when user starts typing *)
  if truthy (error_of f (validationErrors st))
  then setValidationErrors (clear_error f (validationErrors st)) st'
  else st'.

(** Lines 111-112, the figures of the character counter. *)
Definition messageLength (st : State) : nat :=
  List.length (trim (message (formData st))).

Definition isMessageValid (st : State) : bool :=
  (10 <=? messageLength st)%nat.

End Form.

(* ------------------------------------------------------------------ *)
(** * The specification's own wording, for comparison with the code *)
(* ------------------------------------------------------------------ *)

Module Spec.
Import JS Eff.

(** The e-mail shape as the data model words it: at least one [@], at
    least one [.] after it, no whitespace. *)
Fixpoint dot_after_at (s : jsstring) : bool :=
  match s with
  | [] => false
  | c :: s' =>
      ((c =? AT)%N && existsb (fun d => (d =? DOT)%N) s') || dot_after_at s'
  end.

Definition email_shape (e : jsstring) : bool :=
  dot_after_at e && forallb (fun c => negb (is_white_space c)) e.

(** The handler's checks as the numbered steps 2-7 of the request handling
    list, each on its own: the response of a check that fails, [None] for a
    check that passes. *)
Inductive check :=
| MethodCheck | Parse | RequiredFields | EmailFormat | MessageLength
| Configuration.

Definition order : list check :=
  [MethodCheck; Parse; RequiredFields; EmailFormat; MessageLength;
   Configuration].

Definition error_response (st : nat) (err : string) (details : option jsstring)
  : Handler.Response :=
  Handler.json_response st
    [ ("error", Some (Handler.JStr (str err)));
      ("details", option_map Handler.JStr details) ].

Definition on_body (req : Handler.Request)
           (f : Handler.ContactFormData -> option Handler.Response)
  : option Handler.Response :=
  match Handler.json req with
  | inr d => f d
  | inl _ => None
  end.

Definition failure (c : check) (env : Handler.Env) (req : Handler.Request)
  : option Handler.Response :=
  match c with
  | MethodCheck =>
      if eqb (Handler.method req) (str "POST") then None
      else Some (error_response 405 "Method not allowed" None)
  | Parse =>
      match Handler.json req with
      | inl msg => Some (error_response 500 "Internal server error" (Some msg))
      | inr _ => None
      end
  | RequiredFields =>
      on_body req (fun d =>
        if truthy (Handler.name d) && truthy (Handler.email d)
           && truthy (Handler.message d) then None
        else Some (error_response 400 "Missing required fields"
                     (Some (str "name, email, and message are all required"))))
  | EmailFormat =>
      on_body req (fun d =>
        if test emailRegex (to_string (Handler.email d)) then None
        else Some (error_response 400 "Invalid email format" None))
  | MessageLength =>
      on_body req (fun d =>
        if (List.length (trim (to_string (Handler.message d))) <? 10)%nat
        then Some (error_response 400 "Message too short"
                     (Some (str "Message must be at least 10 characters long")))
        else None)
  | Configuration =>
      if truthy (Handler.RESEND_API_KEY env) then None
      else Some (error_response 500 "Server configuration error" None)
  end.

(** The response of the first check, in the given order, that fails. *)
Fixpoint first_failure (cs : list check) (env : Handler.Env)
         (req : Handler.Request) : option Handler.Response :=
  match cs with
  | [] => None
  | c :: cs' =>
      match failure c env req with
      | Some r => Some r
      | None => first_failure cs' env req
      end
  end.

(** A submission that is fully valid, in the words of the data model: the
    three required fields are there, the address has the e-mail format and
    the trimmed message has 10 characters or more. *)
Definition valid (d : Handler.ContactFormData) : bool :=
  truthy (Handler.name d) && truthy (Handler.email d)
  && truthy (Handler.message d)
  && test emailRegex (to_string (Handler.email d))
  && (10 <=? List.length (trim (to_string (Handler.message d))))%nat.

(** The requests that reach the delivery provider: a POST whose body
    parses to a valid submission, under a configured API key, for which
    the mail can be built. *)
Definition dispatches (env : Handler.Env) (req : Handler.Request) : bool :=
  eqb (Handler.method req) (str "POST")
  && match Handler.json req with
     | inr d => valid d && truthy (Handler.RESEND_API_KEY env)
                && Handler.renders d
     | inl _ => false
     end.

End Spec.

(* ------------------------------------------------------------------ *)
(** * The form talking to the handler *)
(* ------------------------------------------------------------------ *)

Module Wire.
Import JS Eff.

(** The request the handler receives for the form's [fetch]: the method of
    the call, and a body that parses back to the four strings that
    [JSON.stringify(formData)] wrote. *)
Definition deliver (init : Form.FetchInit) : Handler.Request :=
  {| Handler.method := str (Form.fetch_method init);
     Handler.json :=
       inr {| Handler.name := Some (Form.name (Form.fetch_body init));
              Handler.email := Some (Form.email (Form.fetch_body init));
              Handler.subject := Some (Form.subject (Form.fetch_body init));
              Handler.message := Some (Form.message (Form.fetch_body init)) |} |}.

(** The [error] member of a JSON object, as the form reads it. *)
Definition error_member (members : list (string * Handler.jval)) : value :=
  match find (fun kv => String.eqb (fst kv) "error") members with
  | Some (_, Handler.JStr s) => Some s
  | _ => None
  end.

(** The handler's response as the form's [fetch] resolves it:
    [response.ok] holds for the statuses 200 to 299, and [response.json()]
    rejects on an empty body. *)
Definition reply (r : Handler.Response) : Form.FetchResponse :=
  {| Form.ok := (200 <=? Handler.status r)%nat
                && (Handler.status r <=? 299)%nat;
     Form.response_json :=
       match Handler.body r with
       | Some members => inr (Form.DataObject (error_member members))
       | None => inl (str "Unexpected end of JSON input")
       end |}.

(** A browser whose [fetch] reaches the handler, itself run against the
    host [w] under the configuration [env]. *)
Definition browser (env : Handler.Env) (w : host Handler.HandlerE)
  : host Form.FormE :=
  fun X e =>
    match e in Form.FormE X return X with
    | Form.PreventDefault => tt
    | Form.Fetch _ init =>
        match outcome w (Handler.serve env (deliver init)) with
        | inr r => inr (reply r)
        | inl err => inl err
        end
    end.

End Wire.

(* ------------------------------------------------------------------ *)
(** * Concrete requests, environments and hosts *)
(* ------------------------------------------------------------------ *)

Module Scenario.
Import JS Eff.

Definition configured : Handler.Env :=
  {| Handler.RESEND_API_KEY := Some (str "re_test_key");
     Handler.RECEIVING_EMAIL := None |}.

Definition unconfigured : Handler.Env :=
  {| Handler.RESEND_API_KEY := None; Handler.RECEIVING_EMAIL := None |}.

Definition post (d : Handler.ContactFormData) : Handler.Request :=
  {| Handler.method := str "POST"; Handler.json := inr d |}.

Definition submission (n e : string) (s : value) (m : string)
  : Handler.ContactFormData :=
  {| Handler.name := Some (str n); Handler.email := Some (str e);
     Handler.subject := s; Handler.message := Some (str m) |}.

(** Scenario A of the testable properties. *)
Definition ada : Handler.ContactFormData :=
  submission "Ada" "ada@example.com" None "Hello, this is a test message.".

(** Scenario A with a subject that is one unpaired high surrogate, as the
    JSON text ["\ud800"] parses to. *)
Definition lone : Handler.ContactFormData :=
  {| Handler.name := Some (str "Ada");
     Handler.email := Some (str "ada@example.com");
     Handler.subject := Some [55296%N];
     Handler.message := Some (str "Hello, this is a test message.") |}.

(** Scenario C. *)
Definition bob : Handler.ContactFormData :=
  submission "" "bob@example.com" None "short".

(** A host whose provider accepts every mail and assigns the id [abc123]. *)
Definition accepting : host Handler.HandlerE :=
  fun X e =>
    match e in Handler.HandlerE X return X with
    | Handler.ConsoleError _ => tt
    | Handler.Now => str "Monday, November 2, 2026 at 09:30 AM UTC"
    | Handler.Fetch _ _ =>
        inr {| Handler.ok := true;
               Handler.response_json :=
                 inr (Handler.DataObject None
                        (Some (Handler.JStr (str "abc123")))) |}
    end.

(** A host whose provider refuses the mail with HTTP 422 (scenario B). *)
Definition refusing : host Handler.HandlerE :=
  fun X e =>
    match e in Handler.HandlerE X return X with
    | Handler.ConsoleError _ => tt
    | Handler.Now => str "Monday, November 2, 2026 at 09:30 AM UTC"
    | Handler.Fetch _ _ =>
        inr {| Handler.ok := false;
               Handler.response_json :=
                 inr (Handler.DataObject
                        (Some (Handler.JStr (str "invalid from address")))
                        None) |}
    end.

(** A host whose provider takes the mail (HTTP 200) but answers with a body
    that is not JSON. *)
Definition garbled : host Handler.HandlerE :=
  fun X e =>
    match e in Handler.HandlerE X return X with
    | Handler.ConsoleError _ => tt
    | Handler.Now => str "Monday, November 2, 2026 at 09:30 AM UTC"
    | Handler.Fetch _ _ =>
        inr {| Handler.ok := true;
               Handler.response_json :=
                 inl (str "Unexpected token < in JSON at position 0") |}
    end.

Definition form_env : Form.ImportMetaEnv :=
  {| Form.VITE_SUPABASE_URL := Some (str "https://project.supabase.co");
     Form.VITE_SUPABASE_ANON_KEY := Some (str "anon") |}.

Definition form_state (n e s m : string) : Form.State :=
  {| Form.formData :=
       {| Form.name := str n; Form.email := str e; Form.subject := str s;
          Form.message := str m |};
     Form.isSubmitting := false;
     Form.submitStatus := {| Form.type := None; Form.status_message := [] |};
     Form.validationErrors := Form.no_errors |}.

(** A browser whose endpoint accepts the submission. *)
Definition endpoint_ok : host Form.FormE :=
  fun X e =>
    match e in Form.FormE X return X with
    | Form.PreventDefault => tt
    | Form.Fetch _ _ =>
        inr {| Form.ok := true;
               Form.response_json := inr (Form.DataObject None) |}
    end.

(** A browser whose endpoint answers 400 "Invalid email format". *)
Definition endpoint_rejects : host Form.FormE :=
  fun X e =>
    match e in Form.FormE X return X with
    | Form.PreventDefault => tt
    | Form.Fetch _ _ =>
        inr {| Form.ok := false;
               Form.response_json :=
                 inr (Form.DataObject (Some (str "Invalid email format"))) |}
    end.

(** A browser whose network is down. *)
Definition offline : host Form.FormE :=
  fun X e =>
    match e in Form.FormE X return X with
    | Form.PreventDefault => tt
    | Form.Fetch _ _ => inl (str "Failed to fetch")
    end.

End Scenario.

(* ------------------------------------------------------------------ *)
(** * Facts about the run-time model *)
(* ------------------------------------------------------------------ *)

Section JSFacts.
Import JS.

Lemma eqb_eq (a b : jsstring) : eqb a b = true <-> a = b.
Proof.
  unfold eqb. destruct (list_eq_dec N.eq_dec a b); split; congruence.
Qed.

Lemma eqb_neq (a b : jsstring) : eqb a b = false <-> a <> b.
Proof.
  unfold eqb. destruct (list_eq_dec N.eq_dec a b); split; congruence.
Qed.

Lemma truthy_Some (s : jsstring) : truthy (Some s) = true <-> s <> [].
Proof. destruct s; simpl; split; congruence. Qed.

Lemma truthy_inv (v : value) :
  truthy v = true -> exists c s, v = Some (c :: s).
Proof.
  destruct v as [[|c s]|]; simpl; try discriminate. intros _. now exists c, s.
Qed.

(** The greedy loop finds a match exactly when some non-empty prefix of
    accepted code units can be split off before a suffix that the
    continuation accepts. *)
Lemma match_plus_spec acc k s :
  match_plus acc k s = true <->
  exists w r, s = w ++ r /\ w <> [] /\ forallb acc w = true /\ k r = true.
Proof.
  induction s as [|c s IH]; simpl.
  - split; [discriminate|].
    intros (w & r & E & Hw & _). destruct w; [congruence | discriminate].
  - rewrite andb_true_iff, orb_true_iff, IH. split.
    + intros [Hc [(w & r & -> & Hw & Hall & Hk) | Hk]].
      * exists (c :: w), r. simpl. rewrite Hc, Hall. repeat split; congruence.
      * exists [c], s. simpl. rewrite Hc. repeat split; congruence.
    + intros (w & r & E & Hw & Hall & Hk).
      destruct w as [|c' w]; [congruence|].
      simpl in E, Hall. injection E as <- ->.
      apply andb_true_iff in Hall as [Hc Hall]. split; [assumption|].
      destruct w as [|c'' w].
      * right. assumption.
      * left. exists (c'' :: w), r. repeat split; [discriminate | | ]; assumption.
Qed.

(** The matcher decides the denotation of the pattern. *)
Lemma match_here_Matches p : forall s, match_here p s = true <-> Matches p s.
Proof.
  induction p as [|[a q] p IH]; intros s.
  - destruct s; simpl; split; intros H; try constructor; try discriminate.
    inversion H.
  - destruct q; simpl.
    + destruct s as [|c s].
      * split; [discriminate | intros H; inversion H].
      * rewrite andb_true_iff, IH. split.
        -- intros [Ha Hm]. now constructor.
        -- intros H; inversion H; subst. now split.
    + rewrite match_plus_spec. split.
      * intros (w & r & -> & Hw & Hall & Hk). constructor; trivial.
        now apply IH.
      * intros H; inversion H; subst. exists w, s0. repeat split; trivial.
        now apply IH.
Qed.

Lemma accepts_class c :
  accepts (NegClass [ClassSpace; ClassChar AT]) c = plain c.
Proof.
  unfold accepts, plain. simpl. now rewrite orb_false_r, negb_orb.
Qed.

Lemma forallb_accepts_class w :
  forallb (accepts (NegClass [ClassSpace; ClassChar AT])) w = forallb plain w.
Proof.
  induction w as [|c w IH]; cbn [forallb]; [reflexivity|].
  now rewrite accepts_class, IH.
Qed.

(** What [emailRegex] accepts, spelled out: [local @ domain . tld] with the
    three parts non-empty and free of whitespace and of [@] (the parts may
    themselves contain dots). *)
Lemma emailRegex_test e :
  test emailRegex e = true <-> well_formed_email e.
Proof.
  unfold test, well_formed_email. rewrite match_here_Matches. split.
  - intros H. unfold emailRegex in H.
    inversion H as [| |a1 p1 l s1 Hl Fl H1]; subst; clear H.
    inversion H1 as [|a2 p2 c2 s2 Hat H2|]; subst; clear H1.
    inversion H2 as [| |a3 p3 d s3 Hd Fd H3]; subst; clear H2.
    inversion H3 as [|a4 p4 c4 s4 Hdot H4|]; subst; clear H3.
    inversion H4 as [| |a5 p5 t s5 Ht Ft H5]; subst; clear H4.
    inversion H5; subst; clear H5.
    simpl in Hat, Hdot. apply N.eqb_eq in Hat, Hdot. subst.
    rewrite forallb_accepts_class in Fl, Fd, Ft.
    exists l, d, t. rewrite app_nil_r. repeat split; assumption.
  - intros (l & d & t & -> & Hl & Hd & Ht & Fl & Fd & Ft).
    unfold emailRegex.
    apply Matches_plus; [assumption | now rewrite forallb_accepts_class |].
    apply Matches_once; [reflexivity|].
    apply Matches_plus; [assumption | now rewrite forallb_accepts_class |].
    apply Matches_once; [reflexivity|].
    rewrite <- (app_nil_r t).
    apply Matches_plus; [assumption | now rewrite forallb_accepts_class |].
    constructor.
Qed.

Lemma emailRegex_test_false e :
  test emailRegex e = false <-> ~ well_formed_email e.
Proof.
  rewrite <- emailRegex_test. destruct (test emailRegex e); split; congruence.
Qed.

End JSFacts.

Section ShapeFacts.
Import JS.

Lemma dot_after_at_app l r :
  existsb (fun d => (d =? DOT)%N) r = true ->
  Spec.dot_after_at (l ++ AT :: r) = true.
Proof.
  intros Hr. induction l as [|c l IH]; simpl.
  - now rewrite Hr.
  - rewrite IH. apply orb_true_r.
Qed.

Lemma plain_not_space l :
  forallb plain l = true ->
  forallb (fun c => negb (is_white_space c)) l = true.
Proof.
  induction l as [|c l IH]; simpl; [reflexivity|].
  unfold plain at 1. rewrite !andb_true_iff. intros [[Hc _] Hl].
  split; [assumption | now apply IH].
Qed.

(** Every string [emailRegex] accepts has the shape the data model words. *)
Lemma emailRegex_email_shape e :
  test emailRegex e = true -> Spec.email_shape e = true.
Proof.
  rewrite emailRegex_test.
  intros (l & d & t & -> & _ & _ & _ & Fl & Fd & Ft).
  unfold Spec.email_shape. apply andb_true_iff; split.
  - apply dot_after_at_app. rewrite existsb_app. simpl.
    apply orb_true_iff; right. reflexivity.
  - rewrite forallb_app. simpl. rewrite forallb_app. simpl.
    now rewrite !plain_not_space by assumption.
Qed.


Lemma trimStart_blank s :
  forallb is_white_space s = true -> trimStart s = [].
Proof.
  induction s as [|c s IH]; simpl; [reflexivity|].
  intros H. apply andb_true_iff in H as [Hc Hs]. now rewrite Hc, IH.
Qed.


End ShapeFacts.

(* ------------------------------------------------------------------ *)
(** * Facts about programs *)
(* ------------------------------------------------------------------ *)

Section ProgFacts.
Import Eff.
Context {E : Type -> Type}.

Lemma leaves_try_catch {A} (P : A -> Prop) (Q Q' : exn -> Prop)
      (p : Prog E A) (h : exn -> Prog E A) :
  leaves P Q p -> (forall e, Q e -> leaves P Q' (h e)) ->
  leaves P Q' (try_catch p h).
Proof.
  intros Hp Hh. induction p as [a|err|X e k IH]; simpl in *; auto.
Qed.

(** Whatever the host answers, the outcome of a run is one of the leaves. *)
Lemma leaves_outcome {A} (P : A -> Prop) (Q : exn -> Prop) (p : Prog E A)
      (w : host E) :
  leaves P Q p ->
  match outcome w p with
  | inr a => P a
  | inl err => Q err
  end.
Proof.
  unfold outcome. induction p as [a|err|X e k IH]; simpl; auto.
  intros H. specialize (IH (w X e) (H (w X e))).
  destruct (run w (k (w X e))). assumption.
Qed.

Lemma run_Vis {A X} (w : host E) (e : E X) (k : X -> Prog E A) :
  run w (Vis e k) =
  (existT _ X e :: fst (run w (k (w X e))), snd (run w (k (w X e)))).
Proof. simpl. now destruct (run w (k (w X e))). Qed.

Lemma trace_Vis {A X} (w : host E) (e : E X) (k : X -> Prog E A) :
  trace w (Vis e k) = existT _ X e :: trace w (k (w X e)).
Proof. unfold trace. now rewrite run_Vis. Qed.

Lemma outcome_Vis {A X} (w : host E) (e : E X) (k : X -> Prog E A) :
  outcome w (Vis e k) = outcome w (k (w X e)).
Proof. unfold outcome. now rewrite run_Vis. Qed.

End ProgFacts.

(* ------------------------------------------------------------------ *)
(** * The handler, branch by branch *)
(* ------------------------------------------------------------------ *)

Section HandlerBranches.
Import JS Eff Handler.

Variable env : Env.
Variable req : Request.

Lemma serve_options :
  method req = str "OPTIONS" ->
  serve env req =
  Ret {| status := 200; resp_headers := corsHeaders; body := None |}.
Proof.
  intros H. unfold serve. now rewrite H.
Qed.

Lemma serve_not_post :
  method req <> str "OPTIONS" -> method req <> str "POST" ->
  serve env req = Ret (Spec.error_response 405 "Method not allowed" None).
Proof.
  intros HO HP. apply eqb_neq in HO, HP.
  unfold serve, serve_try. now rewrite HO, HP.
Qed.

Hypothesis Hpost : method req = str "POST".

Lemma serve_parse_failure msg :
  json req = inl msg ->
  serve env req =
  Vis (ConsoleError (LogProcessing msg))
      (fun _ => Ret (Spec.error_response 500 "Internal server error"
                       (Some msg))).
Proof.
  intros Hj. unfold serve, serve_try. rewrite Hpost, Hj. reflexivity.
Qed.

Variable d : ContactFormData.
Hypothesis Hjson : json req = inr d.

Lemma serve_missing :
  truthy (name d) && truthy (email d) && truthy (message d) = false ->
  serve env req =
  Ret (Spec.error_response 400 "Missing required fields"
         (Some (str "name, email, and message are all required"))).
Proof.
  intros H. unfold serve, serve_try. rewrite Hpost, Hjson.
  cbn [eqb await bind negb try_catch].
  change (eqb (str "POST") (str "OPTIONS")) with false.
  change (eqb (str "POST") (str "POST")) with true.
  cbn [negb bind await].
  destruct (truthy (name d)), (truthy (email d)), (truthy (message d));
    try discriminate; reflexivity.
Qed.

Hypothesis Hname : truthy (name d) = true.
Hypothesis Hemail : truthy (email d) = true.
Hypothesis Hmessage : truthy (message d) = true.

Lemma serve_invalid_email :
  test emailRegex (to_string (email d)) = false ->
  serve env req = Ret (Spec.error_response 400 "Invalid email format" None).
Proof.
  intros H. unfold serve, serve_try.
  rewrite Hpost, Hjson.
  change (eqb (str "POST") (str "OPTIONS")) with false.
  change (eqb (str "POST") (str "POST")) with true.
  cbn [negb bind await].
  rewrite Hname, Hemail, Hmessage, H. reflexivity.
Qed.

Hypothesis Hformat : test emailRegex (to_string (email d)) = true.

Lemma serve_too_short :
  List.length (trim (to_string (message d))) < 10 ->
  serve env req =
  Ret (Spec.error_response 400 "Message too short"
         (Some (str "Message must be at least 10 characters long"))).
Proof.
  intros H. apply Nat.ltb_lt in H. unfold serve, serve_try.
  rewrite Hpost, Hjson.
  change (eqb (str "POST") (str "OPTIONS")) with false.
  change (eqb (str "POST") (str "POST")) with true.
  cbn [negb bind await].
  rewrite Hname, Hemail, Hmessage, Hformat.
  destruct (truthy_inv _ Hmessage) as (c & m & Hm). rewrite Hm in *.
  cbn [negb orb call_trim bind to_string] in *. rewrite H. reflexivity.
Qed.

Hypothesis Hlength : 10 <= List.length (trim (to_string (message d))).

Lemma serve_no_key :
  truthy (RESEND_API_KEY env) = false ->
  serve env req =
  Vis (ConsoleError LogKeyNotSet)
      (fun _ => Ret (Spec.error_response 500 "Server configuration error" None)).
Proof.
  intros H. pose proof Hlength as L. apply Nat.ltb_ge in L.
  unfold serve, serve_try.
  rewrite Hpost, Hjson.
  change (eqb (str "POST") (str "OPTIONS")) with false.
  change (eqb (str "POST") (str "POST")) with true.
  cbn [negb bind await].
  rewrite Hname, Hemail, Hmessage, Hformat.
  destruct (truthy_inv _ Hmessage) as (c & m & Hm). rewrite Hm in *.
  cbn [negb orb call_trim bind to_string] in *. rewrite L, H. reflexivity.
Qed.

End HandlerBranches.

Section HandlerDispatch.
Import JS Eff Handler.

(** When the mail can be built, [render] gives the document of
    [dispatch_init]. *)
Lemma render_renders (env : Env) (d : ContactFormData) (timestamp : jsstring) :
  renders d = true ->
  exists document,
    render d timestamp = inr document /\
    dispatch_init env d timestamp = resend_request env d document.
Proof.
  unfold renders, render, dispatch_init.
  destruct (reply_subject d) as [err|reply]; [discriminate|].
  intros _. eexists. split; reflexivity.
Qed.

(** The only error [render] throws is the [URIError] of line 210. *)
Lemma render_throws (d : ContactFormData) (timestamp : jsstring) :
  renders d = false -> render d timestamp = inl (str "URI malformed").
Proof.
  unfold renders, render, reply_subject, encodeURIComponent.
  destruct (code_points _); [discriminate | reflexivity].
Qed.

Variable env : Env.
Variable req : Request.
Variable d : ContactFormData.
Hypothesis Hpost : method req = str "POST".
Hypothesis Hjson : json req = inr d.
Hypothesis Hname : truthy (name d) = true.
Hypothesis Hemail : truthy (email d) = true.
Hypothesis Hmessage : truthy (message d) = true.
Hypothesis Hformat : test emailRegex (to_string (email d)) = true.
Hypothesis Hlength : 10 <= List.length (trim (to_string (message d))).
Hypothesis Hkey : truthy (RESEND_API_KEY env) = true.

Variable w : host HandlerE.

(** Past the six checks the run asks the time and builds the mail; a mail
    that cannot be built ends the run in the [catch] block, one that can
    is posted, and [relay] takes over once the call has settled. *)
Lemma serve_accepted_run :
  run w (serve env req) =
  match render d (@w _ Now) with
  | inl err =>
      ( [ existT _ _ Now; existT _ _ (ConsoleError (LogProcessing err)) ],
        inr (Spec.error_response 500 "Internal server error" (Some err)) )
  | inr document =>
      ( existT _ _ Now
        :: existT _ _ (Fetch "https://api.resend.com/emails"
                             (resend_request env d document))
        :: trace w (try_catch
                      (relay (@w _ (Fetch "https://api.resend.com/emails"
                                          (resend_request env d document))))
                      serve_catch),
        outcome w (try_catch
                     (relay (@w _ (Fetch "https://api.resend.com/emails"
                                         (resend_request env d document))))
                     serve_catch) )
  end.
Proof.
  pose proof Hlength as L. apply Nat.ltb_ge in L.
  unfold relay, trace, outcome, serve, serve_try.
  rewrite Hpost, Hjson.
  change (eqb (str "POST") (str "OPTIONS")) with false.
  change (eqb (str "POST") (str "POST")) with true.
  cbn [negb bind await].
  rewrite Hname, Hemail, Hmessage, Hformat.
  destruct (truthy_inv _ Hmessage) as (c & m & Hm). rewrite Hm in *.
  cbn [negb orb call_trim bind to_string] in *. rewrite L, Hkey.
  cbn [negb bind trigger try_catch].
  rewrite run_Vis.
  destruct (render d (@w _ Now)) as [err|document].
  - reflexivity.
  - cbn [await bind try_catch]. rewrite run_Vis. reflexivity.
Qed.

(** A mail that cannot be built: 500, logged, the provider not called. *)
Lemma serve_unrendered :
  renders d = false ->
  run w (serve env req) =
  ( [ existT _ _ Now;
      existT _ _ (ConsoleError (LogProcessing (str "URI malformed"))) ],
    inr (Spec.error_response 500 "Internal server error"
           (Some (str "URI malformed"))) ).
Proof.
  intros H. rewrite serve_accepted_run, (render_throws d _ H). reflexivity.
Qed.

(** A mail that can be built is posted, and the run goes on as [relay]. *)
Lemma serve_rendered_run :
  renders d = true ->
  run w (serve env req) =
  (existT _ _ Now :: dispatch env d (@w _ Now)
     :: trace w (try_catch (relay (dispatch_answer w env d)) serve_catch),
   outcome w (try_catch (relay (dispatch_answer w env d)) serve_catch)).
Proof.
  intros H. rewrite serve_accepted_run.
  destruct (render_renders env d (@w _ Now) H) as (document & -> & E).
  unfold dispatch, dispatch_answer. rewrite E. reflexivity.
Qed.

Lemma serve_dispatch :
  renders d = true ->
  exists rest r,
    trace w (serve env req) =
      existT _ _ Now :: dispatch env d (@w _ Now) :: rest /\
    forallb (fun ev => negb (is_fetch ev)) rest = true /\
    outcome w (serve env req) = inr r /\
    (status r = 200 \/ status r = 500).
Proof.
  intros H. unfold trace, outcome. rewrite (serve_rendered_run H).
  cbn [fst snd].
  destruct (dispatch_answer w env d) as [err|[[|] [err|[|msg id]]]];
    cbn; do 2 eexists; (split; [reflexivity|]); (split; [reflexivity|]);
    (split; [reflexivity|]); cbn; auto.
Qed.

(** Past the six checks the answer is a 200 or a 500, and the first thing
    the run does is ask the time. *)
Lemma serve_accepted :
  exists rest r,
    trace w (serve env req) = existT _ _ Now :: rest /\
    outcome w (serve env req) = inr r /\
    (status r = 200 \/ status r = 500).
Proof.
  destruct (renders d) eqn:R.
  - destruct (serve_dispatch R) as (rest & r & Tr & _ & Out & St).
    eexists. exists r. split; [exact Tr|]. split; assumption.
  - unfold trace, outcome. rewrite (serve_unrendered R). cbn [fst snd].
    do 2 eexists. split; [reflexivity|]. split; [reflexivity|].
    right. reflexivity.
Qed.

End HandlerDispatch.

(* ------------------------------------------------------------------ *)
(** * The handler's checks *)
(* ------------------------------------------------------------------ *)

Section HandlerChecks.
Import JS Eff Handler.

(** C3.  A POST request whose body lacks one of [name], [email] and
    [message], or holds the empty string for it, is answered with status
    400 and the body [{error: "Missing required fields", details: "name,
    email, and message are all required"}]; the handler makes no call
    before it answers. *)
Theorem missing_field_rejected (env : Env) (req : Request)
        (d : ContactFormData) :
  method req = str "POST" ->
  json req = inr d ->
  truthy (name d) = false \/ truthy (email d) = false
  \/ truthy (message d) = false ->
  serve env req =
  Ret {| status := 400;
         resp_headers :=
           corsHeaders ++ [("Content-Type", str "application/json")];
         body :=
           Some [ ("error", JStr (str "Missing required fields"));
                  ("details",
                   JStr (str "name, email, and message are all required")) ] |}.
Proof.
  intros Hpost Hjson H.
  rewrite (@serve_missing env req Hpost d Hjson); [reflexivity|].
  destruct H as [-> | [-> | ->]];
    rewrite ?andb_false_r; reflexivity.
Qed.

Lemma missing_field_rejected_witness :
  serve Scenario.configured (Scenario.post Scenario.bob) =
  Ret {| status := 400;
         resp_headers :=
           corsHeaders ++ [("Content-Type", str "application/json")];
         body :=
           Some [ ("error", JStr (str "Missing required fields"));
                  ("details",
                   JStr (str "name, email, and message are all required")) ] |}.
Proof.
  apply (@missing_field_rejected Scenario.configured
           (Scenario.post Scenario.bob) Scenario.bob).
  - reflexivity.
  - reflexivity.
  - left. reflexivity.
Defined.

(** C1, counterexample.  The address [a@b@c.d] has at least one [@], a [.]
    after it and no whitespace, yet [emailRegex] rejects it and the handler
    answers 400 "Invalid email format": the pattern admits one [@] only. *)
Lemma email_shape_not_sufficient :
  Spec.email_shape (str "a@b@c.d") = true /\
  test emailRegex (str "a@b@c.d") = false /\
  serve Scenario.configured
        (Scenario.post
           (Scenario.submission "Ada" "a@b@c.d" None
                                "Hello, this is a test message.")) =
  Ret (Spec.error_response 400 "Invalid email format" None).
Proof. repeat split; reflexivity. Qed.

(** C1, as amended.  In a POST request whose [name], [email] and [message]
    are non-empty: when the address is [local@domain.tld] with the three
    parts non-empty and free of whitespace and of [@] (so with exactly one
    [@]), the format check passes and the handler never answers "Invalid
    email format"; for every other address the handler answers 400 with
    [{error: "Invalid email format"}] and makes no call.  In particular an
    address without the worded shape (an [@], a [.] after it, no
    whitespace) is rejected. *)
Theorem email_format_check (env : Env) (req : Request) (d : ContactFormData)
        (e : jsstring) :
  method req = str "POST" ->
  json req = inr d ->
  truthy (name d) = true ->
  email d = Some e -> e <> [] ->
  truthy (message d) = true ->
  (well_formed_email e ->
   test emailRegex e = true /\
   forall w, outcome w (serve env req)
             <> inr (Spec.error_response 400 "Invalid email format" None))
  /\ (~ well_formed_email e ->
      serve env req = Ret (Spec.error_response 400 "Invalid email format" None))
  /\ (Spec.email_shape e = false ->
      serve env req = Ret (Spec.error_response 400 "Invalid email format" None)).
Proof.
  intros Hpost Hjson Hname He Hne Hmessage.
  assert (Hemail : truthy (email d) = true)
    by (rewrite He; now apply truthy_Some).
  assert (Hreject : test emailRegex e = false ->
            serve env req =
            Ret (Spec.error_response 400 "Invalid email format" None)).
  { intros H. apply (@serve_invalid_email env req Hpost d Hjson);
      trivial. now rewrite He. }
  split; [|split].
  - intros Hwf. apply emailRegex_test in Hwf. split; [assumption|].
    assert (Hformat : test emailRegex (to_string (email d)) = true)
      by now rewrite He.
    intros w.
    destruct (Nat.lt_ge_cases
                (List.length (trim (to_string (message d)))) 10) as [L|L].
    + rewrite (@serve_too_short env req Hpost d Hjson); trivial.
      cbn. discriminate.
    + destruct (truthy (RESEND_API_KEY env)) eqn:K.
      * destruct (@serve_accepted env req d Hpost Hjson Hname Hemail
                    Hmessage Hformat L K w) as (rest & r & _ & -> & St).
        intros H. injection H as ->. cbn in St. destruct St; discriminate.
      * rewrite (@serve_no_key env req Hpost d Hjson); trivial.
        rewrite outcome_Vis. cbn. discriminate.
  - intros Hwf. apply Hreject. now apply emailRegex_test_false.
  - intros Hshape. apply Hreject.
    destruct (test emailRegex e) eqn:T; [|reflexivity].
    apply emailRegex_email_shape in T. congruence.
Qed.

Lemma email_format_check_witness :
  test emailRegex (str "ada@example.com") = true /\
  serve Scenario.configured
        (Scenario.post
           (Scenario.submission "Ada" "not-an-email" None
                                "Hello, this is a test message.")) =
  Ret (Spec.error_response 400 "Invalid email format" None).
Proof.
  split.
  - apply (@email_format_check Scenario.configured
             (Scenario.post Scenario.ada) Scenario.ada
             (str "ada@example.com"));
      try reflexivity; try discriminate.
    exists (str "ada"), (str "example"), (str "com").
    repeat split; try reflexivity; discriminate.
  - apply (@email_format_check Scenario.configured
             (Scenario.post
                (Scenario.submission "Ada" "not-an-email" None
                                     "Hello, this is a test message."))
             (Scenario.submission "Ada" "not-an-email" None
                                  "Hello, this is a test message.")
             (str "not-an-email"));
      try reflexivity; try discriminate.
Defined.

(** C4, counterexample.  The empty message has trimmed length 0, below 10,
    but the handler answers "Missing required fields", not "Message too
    short", although name and address are valid. *)
Lemma empty_message_not_too_short :
  List.length (trim (str "")) < 10 /\
  serve Scenario.configured
        (Scenario.post (Scenario.submission "Ada" "ada@example.com" None "")) =
  Ret (Spec.error_response 400 "Missing required fields"
         (Some (str "name, email, and message are all required"))) /\
  Spec.error_response 400 "Missing required fields"
    (Some (str "name, email, and message are all required"))
  <> Spec.error_response 400 "Message too short"
       (Some (str "Message must be at least 10 characters long")).
Proof.
  split; [cbn; lia|]. split; [reflexivity|]. discriminate.
Qed.

(** C4, as amended.  In a POST request that passes the required-field and
    the e-mail format checks (so its message is not empty): when the
    trimmed length of the message is below 10 the handler answers 400 with
    [{error: "Message too short", details: "Message must be at least 10
    characters long"}] and makes no call; when it is 10 or more the length
    check passes, whatever the message holds: the handler never answers
    "Message too short" and goes on to the configuration check, which
    either fails or lets the handler go on to build the mail, its first
    step being to ask the time; a mail that can be built is dispatched. *)
Theorem message_length_check (env : Env) (req : Request)
        (d : ContactFormData) (m : jsstring) :
  method req = str "POST" ->
  json req = inr d ->
  truthy (name d) = true ->
  truthy (email d) = true ->
  test emailRegex (to_string (email d)) = true ->
  message d = Some m -> m <> [] ->
  (List.length (trim m) < 10 ->
   serve env req =
   Ret (Spec.error_response 400 "Message too short"
          (Some (str "Message must be at least 10 characters long"))))
  /\ (10 <= List.length (trim m) ->
      forall w,
        outcome w (serve env req)
        <> inr (Spec.error_response 400 "Message too short"
                  (Some (str "Message must be at least 10 characters long")))
        /\ (truthy (RESEND_API_KEY env) = false ->
            outcome w (serve env req) =
            inr (Spec.error_response 500 "Server configuration error" None))
        /\ (truthy (RESEND_API_KEY env) = true ->
            hd_error (trace w (serve env req)) = Some (existT _ _ Now) /\
            (renders d = true ->
             In (dispatch env d (@w _ Now)) (trace w (serve env req))))).
Proof.
  intros Hpost Hjson Hname Hemail Hformat Hm Hne.
  assert (Hmessage : truthy (message d) = true)
    by (rewrite Hm; now apply truthy_Some).
  split.
  - intros L. apply (@serve_too_short env req Hpost d Hjson); trivial.
    now rewrite Hm.
  - intros L w.
    assert (L' : 10 <= List.length (trim (to_string (message d))))
      by now rewrite Hm.
    destruct (truthy (RESEND_API_KEY env)) eqn:K.
    + destruct (@serve_accepted env req d Hpost Hjson Hname Hemail
                  Hmessage Hformat L' K w) as (rest & r & Tr & Out & St).
      rewrite Out. split; [|split].
      * intros H. injection H as ->. cbn in St. destruct St; discriminate.
      * discriminate.
      * intros _. split; [now rewrite Tr|]. intros R.
        destruct (@serve_dispatch env req d Hpost Hjson Hname Hemail
                    Hmessage Hformat L' K w R) as (rest' & _ & -> & _).
        right. left. reflexivity.
    + rewrite (@serve_no_key env req Hpost d Hjson); trivial.
      rewrite outcome_Vis. cbn. repeat split; try discriminate.
Qed.

Lemma message_length_check_witness :
  serve Scenario.configured
        (Scenario.post
           (Scenario.submission "Bob" "bob@example.com" None "short")) =
  Ret (Spec.error_response 400 "Message too short"
         (Some (str "Message must be at least 10 characters long"))).
Proof.
  apply (@message_length_check Scenario.configured
           (Scenario.post
              (Scenario.submission "Bob" "bob@example.com" None "short"))
           (Scenario.submission "Bob" "bob@example.com" None "short")
           (str "short"));
    try reflexivity; try discriminate.
  cbn. lia.
Defined.

End HandlerChecks.

(* ------------------------------------------------------------------ *)
(** * Rejection comes before any outbound call *)
(* ------------------------------------------------------------------ *)

Section Rejection.
Import JS Eff.

(** When [validateForm] fails, [handleSubmit] stops after
    [e.preventDefault()] with the fixed validation message. *)
Lemma handleSubmit_invalid (env : Form.ImportMetaEnv) (st : Form.State) :
  fst (Form.validateForm st) = false ->
  Form.handleSubmit env st =
  Vis Form.PreventDefault
      (fun _ =>
         Ret (Form.setSubmitStatus
                {| Form.type := Some Form.error;
                   Form.status_message :=
                     str "Please fix the validation errors before submitting." |}
                (snd (Form.validateForm st)))).
Proof.
  intros H. unfold Form.handleSubmit.
  destruct (Form.validateForm st) as [valid st1]. simpl in H. subst valid.
  reflexivity.
Qed.

(** C2.  A submission that fails a validation check never causes an
    outbound call.  In the handler, a POST request with a missing or empty
    required field, an address [emailRegex] rejects, or a message of
    trimmed length below 10 is answered with status 400 by a run that makes
    no call at all, so none to the delivery provider.  In the form, when
    [validateForm] fails, [handleSubmit] issues no [fetch]: it sets the
    error status and returns. *)
Theorem no_call_on_invalid_submission :
  (forall (env : Handler.Env) (req : Handler.Request)
          (d : Handler.ContactFormData),
      Handler.method req = str "POST" ->
      Handler.json req = inr d ->
      truthy (Handler.name d) = false
      \/ truthy (Handler.email d) = false
      \/ truthy (Handler.message d) = false
      \/ test emailRegex (to_string (Handler.email d)) = false
      \/ List.length (trim (to_string (Handler.message d))) < 10 ->
      exists r,
        Handler.serve env req = Ret r /\ Handler.status r = 400 /\
        forall w, trace w (Handler.serve env req) = []
                  /\ outcome w (Handler.serve env req) = inr r)
  /\
  (forall (env : Form.ImportMetaEnv) (st : Form.State),
      fst (Form.validateForm st) = false ->
      forall w,
        existsb Form.is_fetch (trace w (Form.handleSubmit env st)) = false /\
        exists st',
          outcome w (Form.handleSubmit env st) = inr st' /\
          Form.submitStatus st' =
          {| Form.type := Some Form.error;
             Form.status_message :=
               str "Please fix the validation errors before submitting." |}).
Proof.
  split.
  - intros env req d Hpost Hjson H.
    assert (Hret : forall r, Handler.serve env req = Ret r ->
              Handler.status r = 400 ->
              exists r,
                Handler.serve env req = Ret r /\ Handler.status r = 400 /\
                forall w, trace w (Handler.serve env req) = []
                          /\ outcome w (Handler.serve env req) = inr r).
    { intros r E St. exists r. rewrite E. repeat split; assumption. }
    destruct (truthy (Handler.name d) && truthy (Handler.email d)
              && truthy (Handler.message d)) eqn:Req.
    + apply andb_true_iff in Req as [Req Hmessage].
      apply andb_true_iff in Req as [Hname Hemail].
      destruct (test emailRegex (to_string (Handler.email d))) eqn:Hformat.
      * destruct H as [H|[H|[H|[H|H]]]]; try congruence.
        eapply Hret;
          [apply (@serve_too_short env req Hpost d Hjson); assumption|].
        reflexivity.
      * eapply Hret;
          [apply (@serve_invalid_email env req Hpost d Hjson); assumption|].
        reflexivity.
    + eapply Hret;
        [apply (@serve_missing env req Hpost d Hjson); assumption|].
      reflexivity.
  - intros env st H w. rewrite (handleSubmit_invalid env st H).
    rewrite trace_Vis, outcome_Vis. cbn. split; [reflexivity|].
    eexists. split; reflexivity.
Qed.

Lemma no_call_on_invalid_submission_witness :
  (exists r,
      Handler.serve Scenario.configured
        (Scenario.post
           (Scenario.submission "Ada" "not-an-email" None
                                "Hello, this is a test message.")) = Ret r
      /\ Handler.status r = 400)
  /\ existsb Form.is_fetch
       (trace Scenario.offline
          (Form.handleSubmit Scenario.form_env
             (Scenario.form_state "Ada" "not-an-email" ""
                                  "Hello, this is a test message."))) = false.
Proof.
  split.
  - destruct (proj1 no_call_on_invalid_submission Scenario.configured
                (Scenario.post
                   (Scenario.submission "Ada" "not-an-email" None
                                        "Hello, this is a test message."))
                (Scenario.submission "Ada" "not-an-email" None
                                     "Hello, this is a test message.")
                eq_refl eq_refl
                (or_intror (or_intror (or_intror (or_introl eq_refl)))))
      as (r & E & St & _).
    exists r. split; assumption.
  - apply (proj2 no_call_on_invalid_submission Scenario.form_env
             (Scenario.form_state "Ada" "not-an-email" ""
                                  "Hello, this is a test message.")
             eq_refl Scenario.offline).
Defined.

End Rejection.

(* ------------------------------------------------------------------ *)
(** * The first failing check *)
(* ------------------------------------------------------------------ *)

Section FirstFailure.
Import JS Eff Handler.

(** The response of the first failing check is the handler's answer, given
    without calling the provider. *)
Lemma serve_first_failure (env : Env) (req : Request) (resp : Response)
      (w : host HandlerE) :
  method req <> str "OPTIONS" ->
  Spec.first_failure Spec.order env req = Some resp ->
  outcome w (serve env req) = inr resp /\
  existsb is_fetch (trace w (serve env req)) = false.
Proof.
  intros HO HF. revert HF.
  unfold Spec.order, Spec.first_failure, Spec.failure, Spec.on_body.
  destruct (eqb (method req) (str "POST")) eqn:EP.
  2:{ intros [= <-]. apply eqb_neq in EP.
      rewrite (@serve_not_post env req HO EP). split; reflexivity. }
  apply eqb_eq in EP.
  destruct (json req) as [msg|d] eqn:EJ.
  { intros [= <-]. rewrite (@serve_parse_failure env req EP msg EJ).
    rewrite outcome_Vis, trace_Vis. split; reflexivity. }
  destruct (truthy (name d) && truthy (email d) && truthy (message d))
    eqn:Req.
  2:{ intros [= <-]. rewrite (@serve_missing env req EP d EJ Req).
      split; reflexivity. }
  apply andb_true_iff in Req as [Req Hmessage].
  apply andb_true_iff in Req as [Hname Hemail].
  destruct (test emailRegex (to_string (email d))) eqn:Hformat.
  2:{ intros [= <-].
      rewrite (@serve_invalid_email env req EP d EJ Hname Hemail
                 Hmessage Hformat).
      split; reflexivity. }
  destruct (List.length (trim (to_string (message d))) <? 10)%nat eqn:L.
  { intros [= <-]. apply Nat.ltb_lt in L.
    rewrite (@serve_too_short env req EP d EJ Hname Hemail Hmessage
               Hformat L).
    split; reflexivity. }
  apply Nat.ltb_ge in L.
  destruct (truthy (RESEND_API_KEY env)) eqn:K; [discriminate|].
  intros [= <-].
  rewrite (@serve_no_key env req EP d EJ Hname Hemail Hmessage Hformat L K).
  rewrite outcome_Vis, trace_Vis. split; reflexivity.
Qed.

(** The responses of the checks are error documents, and a request that
    fails a check is none that is dispatched. *)
Lemma first_failure_shape (env : Env) (req : Request) (resp : Response) :
  Spec.first_failure Spec.order env req = Some resp ->
  Spec.dispatches env req = false /\
  exists st err det,
    resp = Spec.error_response st err det /\
    (st = 400 \/ st = 405 \/ st = 500) /\ str err <> [].
Proof.
  unfold Spec.dispatches, Spec.valid, Spec.order, Spec.first_failure,
    Spec.failure, Spec.on_body.
  destruct (eqb (method req) (str "POST")).
  2:{ intros [= <-]. split; [reflexivity|]. do 3 eexists.
      split; [reflexivity|]. split; [auto | discriminate]. }
  destruct (json req) as [msg|d].
  { intros [= <-]. split; [reflexivity|]. do 3 eexists.
    split; [reflexivity|]. split; [auto | discriminate]. }
  rewrite Nat.ltb_antisym.
  destruct (truthy (name d) && truthy (email d) && truthy (message d)).
  2:{ intros [= <-]. split; [reflexivity|]. do 3 eexists.
      split; [reflexivity|]. split; [auto | discriminate]. }
  destruct (test emailRegex (to_string (email d))).
  2:{ intros [= <-]. split; [reflexivity|]. do 3 eexists.
      split; [reflexivity|]. split; [auto | discriminate]. }
  destruct (10 <=? List.length (trim (to_string (message d))))%nat.
  2:{ intros [= <-]. split; [reflexivity|]. do 3 eexists.
      split; [reflexivity|]. split; [auto | discriminate]. }
  destruct (truthy (RESEND_API_KEY env)); [discriminate|].
  intros [= <-]. split; [reflexivity|]. do 3 eexists.
  split; [reflexivity|]. split; [auto | discriminate].
Qed.

(** A request that fails no check is a POST of a valid submission under a
    configured key. *)
Lemma first_failure_None (env : Env) (req : Request) :
  Spec.first_failure Spec.order env req = None ->
  exists d,
    method req = str "POST" /\ json req = inr d /\
    Spec.valid d = true /\ truthy (RESEND_API_KEY env) = true.
Proof.
  unfold Spec.valid, Spec.order, Spec.first_failure, Spec.failure,
    Spec.on_body.
  destruct (eqb (method req) (str "POST")) eqn:EP; [|discriminate].
  apply eqb_eq in EP.
  destruct (json req) as [msg|d]; [discriminate|].
  rewrite Nat.ltb_antisym.
  destruct (truthy (name d) && truthy (email d) && truthy (message d))
    eqn:Req; [|discriminate].
  destruct (test emailRegex (to_string (email d))) eqn:T; [|discriminate].
  destruct (10 <=? List.length (trim (to_string (message d))))%nat eqn:L;
    [|discriminate].
  destruct (truthy (RESEND_API_KEY env)); [|discriminate].
  intros _. exists d. split; [exact EP|]. split; [reflexivity|].
  split; [|reflexivity]. now rewrite Req, T, L.
Qed.

End FirstFailure.

(* ------------------------------------------------------------------ *)
(** * The order of the checks *)
(* ------------------------------------------------------------------ *)

Section CheckOrder.
Import JS Eff Handler.

(** C5.  For a request that is not a preflight, the handler answers with
    the response of the first check that fails in the order method, parse,
    required fields, e-mail format, message length, configuration, and it
    does so without calling the delivery provider; when no check fails the
    handler goes on to build the mail, asking the time first, and
    dispatches the mail whenever it can be built.  In scenario C, [{name:
    "", email:
    "bob@example.com", message: "short"}], the answer is 400 "Missing
    required fields" although the message is too short as well. *)
Theorem first_failing_check_decides :
  (forall (env : Env) (req : Request) (resp : Response),
      method req <> str "OPTIONS" ->
      Spec.first_failure Spec.order env req = Some resp ->
      forall w,
        outcome w (serve env req) = inr resp /\
        existsb is_fetch (trace w (serve env req)) = false)
  /\
  (forall (env : Env) (req : Request),
      method req <> str "OPTIONS" ->
      Spec.first_failure Spec.order env req = None ->
      exists d,
        json req = inr d /\
        forall w,
          hd_error (trace w (serve env req)) = Some (existT _ _ Now) /\
          existsb is_fetch (trace w (serve env req)) = renders d)
  /\
  (forall env : Env,
      Spec.failure Spec.MessageLength env (Scenario.post Scenario.bob)
      = Some (Spec.error_response 400 "Message too short"
                (Some (str "Message must be at least 10 characters long")))
      /\
      serve env (Scenario.post Scenario.bob) =
      Ret (Spec.error_response 400 "Missing required fields"
             (Some (str "name, email, and message are all required")))).
Proof.
  split; [|split].
  - intros env req resp HO HF w. now apply serve_first_failure.
  - intros env req HO HF. revert HF.
    unfold Spec.order, Spec.first_failure, Spec.failure, Spec.on_body.
    destruct (eqb (method req) (str "POST")) eqn:EP; [|discriminate].
    apply eqb_eq in EP.
    destruct (json req) as [msg|d] eqn:EJ; [discriminate|].
    destruct (truthy (name d) && truthy (email d) && truthy (message d))
      eqn:Req; [|discriminate].
    apply andb_true_iff in Req as [Req Hmessage].
    apply andb_true_iff in Req as [Hname Hemail].
    destruct (test emailRegex (to_string (email d))) eqn:Hformat;
      [|discriminate].
    destruct (List.length (trim (to_string (message d))) <? 10)%nat eqn:L;
      [discriminate|].
    apply Nat.ltb_ge in L.
    destruct (truthy (RESEND_API_KEY env)) eqn:K; [|discriminate].
    intros _. exists d. split; [reflexivity|]. intros w.
    destruct (renders d) eqn:R.
    + destruct (@serve_dispatch env req d EP EJ Hname Hemail Hmessage
                  Hformat L K w R) as (rest & r & -> & _).
      split; reflexivity.
    + unfold trace.
      rewrite (@serve_unrendered env req d EP EJ Hname Hemail Hmessage
                 Hformat L K w R).
      split; reflexivity.
  - intros env. split; reflexivity.
Qed.

Lemma first_failing_check_decides_witness :
  outcome Scenario.accepting
          (serve Scenario.unconfigured (Scenario.post Scenario.ada))
  = inr (Spec.error_response 500 "Server configuration error" None)
  /\ existsb is_fetch
       (trace Scenario.accepting
              (serve Scenario.configured (Scenario.post Scenario.ada)))
     = true.
Proof.
  split.
  - apply (proj1 first_failing_check_decides Scenario.unconfigured
             (Scenario.post Scenario.ada)
             (Spec.error_response 500 "Server configuration error" None)).
    + discriminate.
    + reflexivity.
  - destruct (proj1 (proj2 first_failing_check_decides) Scenario.configured
                (Scenario.post Scenario.ada))
      as (d & J & H).
    + discriminate.
    + reflexivity.
    + injection J as <-. apply (proj2 (H Scenario.accepting)).
Defined.

End CheckOrder.

(* ------------------------------------------------------------------ *)
(** * CORS headers *)
(* ------------------------------------------------------------------ *)

Section Cors.
Import JS Eff Handler.

Lemma json_response_cors st members : carries_cors (json_response st members).
Proof. repeat split. Qed.

Local Ltac leaf :=
  repeat match goal with
         | |- leaves _ _ (Ret (json_response _ _)) => apply json_response_cors
         | |- leaves _ _ (Throw _) => exact I
         | |- leaves _ _ (if ?b then _ else _) => destruct b
         | |- leaves _ _ (Vis _ _) => intros ?
         | |- leaves _ _ (bind (Ret _) _) => cbn [bind]
         | |- leaves _ _ (bind (Throw _) _) => cbn [bind]
         | |- leaves _ _ (bind (Vis _ _) _) => cbn [bind]
         | |- leaves _ _ (bind (trigger _) _) => unfold trigger
         | |- leaves _ _ (bind (await ?r) _) => destruct r; cbn [await]
         | |- leaves _ _ (bind (call_trim ?v) _) => destruct v; cbn [call_trim]
         | |- leaves _ _ (bind (data_message ?v) _) =>
             destruct v; cbn [data_message]
         | |- leaves _ _ (bind (data_id ?v) _) => destruct v; cbn [data_id]
         end.

(** Inside the [try] block every response carries the headers (and errors
    may be thrown). *)
Lemma serve_try_cors env req :
  leaves carries_cors (fun _ => True) (serve_try env req).
Proof. unfold serve_try. leaf. Qed.

Lemma serve_catch_cors err :
  leaves carries_cors (fun _ => False) (serve_catch err).
Proof. unfold serve_catch. leaf. Qed.

(** No error escapes the handler, and every response carries the headers. *)
Lemma serve_cors env req :
  leaves carries_cors (fun _ => False) (serve env req).
Proof.
  unfold serve. destruct (eqb (method req) (str "OPTIONS")).
  - repeat split.
  - eapply leaves_try_catch; [apply serve_try_cors|].
    intros err _. apply serve_catch_cors.
Qed.

(** C6.  Whatever the request, the configuration and the behaviour of the
    host, the handler produces a response, and that response carries
    [Access-Control-Allow-Origin: *], [Access-Control-Allow-Methods: GET,
    POST, PUT, DELETE, OPTIONS] and [Access-Control-Allow-Headers:
    Content-Type, Authorization, X-Client-Info, Apikey]; and an OPTIONS
    request is answered at once with status 200, no body and exactly those
    headers. *)
Theorem cors_on_every_response :
  (forall (env : Env) (req : Request) (w : host HandlerE),
      exists r,
        outcome w (serve env req) = inr r /\
        get (resp_headers r) "Access-Control-Allow-Origin" = Some (str "*") /\
        get (resp_headers r) "Access-Control-Allow-Methods"
          = Some (str "GET, POST, PUT, DELETE, OPTIONS") /\
        get (resp_headers r) "Access-Control-Allow-Headers"
          = Some (str "Content-Type, Authorization, X-Client-Info, Apikey"))
  /\
  (forall (env : Env) (parsed : exn + ContactFormData),
      serve env {| method := str "OPTIONS"; json := parsed |} =
      Ret {| status := 200;
             resp_headers :=
               [ ("Access-Control-Allow-Origin", str "*");
                 ("Access-Control-Allow-Methods",
                  str "GET, POST, PUT, DELETE, OPTIONS");
                 ("Access-Control-Allow-Headers",
                  str "Content-Type, Authorization, X-Client-Info, Apikey") ];
             body := None |}).
Proof.
  split.
  - intros env req w.
    pose proof (@leaves_outcome _ _ _ _ _ w (serve_cors env req)) as H.
    cbv beta in H.
    destruct (outcome w (serve env req)) as [err|r]; [contradiction|].
    exists r. split; [reflexivity | exact H].
  - intros env parsed. reflexivity.
Qed.

End Cors.

(* ------------------------------------------------------------------ *)
(** * The dispatched mail *)
(* ------------------------------------------------------------------ *)

Section Dispatch.
Import JS Eff Handler.

Lemma posted_no_fetch (t : list (event HandlerE)) :
  forallb (fun ev => negb (is_fetch ev)) t = true -> posted t = [].
Proof.
  induction t as [|[X e] t IH]; [reflexivity|].
  cbn [forallb posted flat_map]. intros H.
  apply andb_true_iff in H as [He Ht].
  fold (posted t). rewrite (IH Ht).
  destruct e; try reflexivity. discriminate.
Qed.

Lemma no_fetch_existsb (t : list (event HandlerE)) :
  forallb (fun ev => negb (is_fetch ev)) t = true ->
  existsb is_fetch t = false.
Proof.
  induction t as [|ev t IH]; [reflexivity|].
  simpl. intros H. apply andb_true_iff in H as [Hev Ht].
  apply negb_true_iff in Hev. rewrite Hev. now apply IH.
Qed.

(** C7.  For a valid submission (and a configured API key), every mail the
    handler posts has as its subject [Contact Form: ] followed by the
    submission's subject when a subject is present, and [New Contact Form
    Submission from ] followed by the submitter's name otherwise.  A
    subject is present when it is a non-empty string: the form sends the
    empty string for a subject left blank.  When the mail can be built
    (the call of [encodeURIComponent] for the reply link returns) the
    handler calls the delivery provider exactly once, with that subject;
    when it cannot, no mail is posted. *)
Theorem dispatched_subject (env : Env) (req : Request) (d : ContactFormData)
        (n : jsstring) (w : host HandlerE) :
  method req = str "POST" ->
  json req = inr d ->
  name d = Some n -> n <> [] ->
  truthy (email d) = true ->
  truthy (message d) = true ->
  test emailRegex (to_string (email d)) = true ->
  10 <= List.length (trim (to_string (message d))) ->
  truthy (RESEND_API_KEY env) = true ->
  Forall (fun init : FetchInit =>
            mail_subject (fetch_body init) =
            match subject d with
            | Some (c :: s) => str "Contact Form: " ++ c :: s
            | Some [] | None => str "New Contact Form Submission from " ++ n
            end)
         (posted (trace w (serve env req)))
  /\ (renders d = true ->
      exists (init : FetchInit) (rest : list (event HandlerE)),
        trace w (serve env req) =
          existT _ _ Now
          :: existT _ _ (Fetch "https://api.resend.com/emails" init) :: rest /\
        existsb is_fetch rest = false /\
        mail_subject (fetch_body init) =
        match subject d with
        | Some (c :: s) => str "Contact Form: " ++ c :: s
        | Some [] | None => str "New Contact Form Submission from " ++ n
        end)
  /\ (renders d = false -> posted (trace w (serve env req)) = []).
Proof.
  intros Hpost Hjson Hn Hne Hemail Hmessage Hformat L K.
  assert (Hname : truthy (name d) = true)
    by (rewrite Hn; now apply truthy_Some).
  assert (S : mail_subject (fetch_body (dispatch_init env d (@w _ Now))) =
              match subject d with
              | Some (c :: s) => str "Contact Form: " ++ c :: s
              | Some [] | None => str "New Contact Form Submission from " ++ n
              end).
  { cbn [dispatch_init resend_request fetch_body mail mail_subject].
    unfold emailSubject. rewrite Hn.
    destruct (subject d) as [[|c s]|]; reflexivity. }
  destruct (renders d) eqn:R.
  - destruct (@serve_dispatch env req d Hpost Hjson Hname Hemail Hmessage
                Hformat L K w R) as (rest & r & Tr & NF & _).
    split; [|split; [|discriminate]].
    + rewrite Tr. cbn [posted flat_map dispatch projT2 app].
      fold (posted rest). rewrite (posted_no_fetch rest NF).
      constructor; [exact S | constructor].
    + intros _. exists (dispatch_init env d (@w _ Now)), rest.
      split; [exact Tr|]. split; [now apply no_fetch_existsb | exact S].
  - assert (P : posted (trace w (serve env req)) = []).
    { unfold trace.
      rewrite (@serve_unrendered env req d Hpost Hjson Hname Hemail
                 Hmessage Hformat L K w R).
      reflexivity. }
    split; [rewrite P; constructor|]. split; [discriminate|].
    intros _. exact P.
Qed.

Lemma dispatched_subject_witness :
  exists init rest,
    trace Scenario.accepting
          (serve Scenario.configured
                 (Scenario.post
                    (Scenario.submission "Ada" "ada@example.com"
                       (Some (str "Pricing"))
                       "Hello, this is a test message."))) =
      existT _ _ Now
      :: existT _ _ (Fetch "https://api.resend.com/emails" init) :: rest /\
    existsb is_fetch rest = false /\
    mail_subject (fetch_body init) = str "Contact Form: Pricing".
Proof.
  apply (@dispatched_subject Scenario.configured
           (Scenario.post
              (Scenario.submission "Ada" "ada@example.com"
                 (Some (str "Pricing")) "Hello, this is a test message."))
           (Scenario.submission "Ada" "ada@example.com"
              (Some (str "Pricing")) "Hello, this is a test message.")
           (str "Ada") Scenario.accepting);
    try reflexivity; try discriminate.
  cbn. lia.
Defined.

End Dispatch.

(* ------------------------------------------------------------------ *)
(** * What the required-field check lets through *)
(* ------------------------------------------------------------------ *)

Section Blank.
Import JS Eff Handler.



End Blank.

(* ------------------------------------------------------------------ *)
(** * The form's validation *)
(* ------------------------------------------------------------------ *)

Section FormValidation.
Import JS Eff Form.

(** The verdict and the error mapping are a function of the field values. *)
Lemma validateForm_fields (st st' : State) :
  formData st = formData st' ->
  fst (validateForm st) = fst (validateForm st') /\
  validationErrors (snd (validateForm st))
  = validationErrors (snd (validateForm st')).
Proof.
  intros H. unfold validateForm. rewrite H. split; reflexivity.
Qed.

(** When [validateForm] passes, [handleSubmit] posts the field values, once. *)
Lemma handleSubmit_valid (env : ImportMetaEnv) (st : State) (w : host FormE) :
  fst (validateForm st) = true ->
  trace w (handleSubmit env st) =
  [ existT _ _ PreventDefault;
    existT _ _ (Fetch (apiUrl env) (post env (formData st))) ].
Proof.
  intros H. unfold handleSubmit.
  destruct (validateForm st) as [valid st1]. simpl in H. subst valid.
  cbn [negb bind trigger try_catch].
  rewrite !trace_Vis.
  destruct (@w _ (Fetch _ _)) as [err|[[|] [err|[|e]]]]; reflexivity.
Qed.

(** C8, counterexample.  [validateForm] is not free of side effects: on a
    form holding the address [not-an-email] and no recorded error it
    records one, so the component state after the call differs from the
    state before. *)
Lemma validateForm_writes_state :
  let st := Scenario.form_state "Ada" "not-an-email" ""
                                "Hello, this is a test message." in
  validationErrors st = no_errors /\
  validationErrors (snd (validateForm st)) =
  {| email_error := Some (str "Please enter a valid email address");
     message_error := None |} /\
  snd (validateForm st) <> st.
Proof.
  cbv zeta. repeat split. discriminate.
Qed.

(** C8, as amended.  Validation is repeatable: for fixed field values,
    running [validateForm] again yields the same verdict, and the same
    component state, as running it once; verdict and error mapping depend
    on the field values alone.  It is not free of side effects: it stores
    the error mapping it computed in the component state, and that is its
    only effect, the field values, the submitting flag and the status
    being left as they were.  The handler's validation has no side effect:
    a request it rejects is answered 400 by a run that makes no call, with
    a response that does not depend on the configuration. *)
Theorem validation_repeatable :
  (forall st : State,
      validateForm (snd (validateForm st)) = validateForm st)
  /\
  (forall st st' : State,
      formData st = formData st' ->
      fst (validateForm st) = fst (validateForm st') /\
      validationErrors (snd (validateForm st))
      = validationErrors (snd (validateForm st')))
  /\
  (forall st : State,
      formData (snd (validateForm st)) = formData st /\
      isSubmitting (snd (validateForm st)) = isSubmitting st /\
      submitStatus (snd (validateForm st)) = submitStatus st)
  /\
  (forall (req : Handler.Request) (d : Handler.ContactFormData),
      Handler.method req = str "POST" ->
      Handler.json req = inr d ->
      truthy (Handler.name d) = false
      \/ truthy (Handler.email d) = false
      \/ truthy (Handler.message d) = false
      \/ test emailRegex (to_string (Handler.email d)) = false
      \/ List.length (trim (to_string (Handler.message d))) < 10 ->
      exists r,
        Handler.status r = 400 /\
        forall env : Handler.Env, Handler.serve env req = Ret r).
Proof.
  split; [|split; [|split]].
  - intros st. unfold validateForm. reflexivity.
  - apply validateForm_fields.
  - intros st. repeat split.
  - intros req d Hpost Hjson H.
    destruct (truthy (Handler.name d) && truthy (Handler.email d)
              && truthy (Handler.message d)) eqn:Req.
    + apply andb_true_iff in Req as [Req Hmessage].
      apply andb_true_iff in Req as [Hname Hemail].
      destruct (test emailRegex (to_string (Handler.email d))) eqn:Hformat.
      * destruct H as [H|[H|[H|[H|H]]]]; try congruence.
        eexists. split; [|intros env;
          apply (@serve_too_short env req Hpost d Hjson); assumption].
        reflexivity.
      * eexists. split; [|intros env;
          apply (@serve_invalid_email env req Hpost d Hjson); assumption].
        reflexivity.
    + eexists. split; [|intros env;
        apply (@serve_missing env req Hpost d Hjson); assumption].
      reflexivity.
Qed.

Lemma validation_repeatable_witness :
  fst (validateForm
         (Scenario.form_state "Ada" "not-an-email" ""
                              "Hello, this is a test message.")) =
  fst (validateForm
         (snd (validateForm
                 (Scenario.form_state "Ada" "not-an-email" ""
                                      "Hello, this is a test message.")))) /\
  exists r,
    Handler.status r = 400 /\
    forall env, Handler.serve env (Scenario.post Scenario.bob) = Ret r.
Proof.
  split.
  - apply (proj1 (proj1 (proj2 validation_repeatable)
                    (Scenario.form_state "Ada" "not-an-email" ""
                                         "Hello, this is a test message.")
                    (snd (validateForm
                            (Scenario.form_state "Ada" "not-an-email" ""
                               "Hello, this is a test message.")))
                    eq_refl)).
  - apply (proj2 (proj2 (proj2 validation_repeatable))
             (Scenario.post Scenario.bob) Scenario.bob eq_refl eq_refl).
    left. reflexivity.
Defined.

(** C9.  [validateForm] checks a field only when it holds something: on a
    form whose address and message are both the empty string, whatever the
    rest of the state, it records no error and returns [true]; such a form,
    the completely empty one included, passes the client-side validation
    and [handleSubmit] goes on to post it. *)
Theorem empty_form_passes :
  forall (n s : jsstring) (submitting : bool) (status : SubmitStatus)
         (errors : ValidationErrors),
    let st := {| formData := {| name := n; email := []; subject := s;
                                message := [] |};
                 isSubmitting := submitting;
                 submitStatus := status;
                 validationErrors := errors |} in
    validateForm st = (true, setValidationErrors no_errors st) /\
    keys_length (validationErrors (snd (validateForm st))) = 0 /\
    forall env w,
      existsb is_fetch (trace w (handleSubmit env st)) = true.
Proof.
  intros n s submitting status errors st.
  split; [reflexivity|]. split; [reflexivity|].
  intros env w. rewrite handleSubmit_valid by reflexivity. reflexivity.
Qed.

End FormValidation.

(* ------------------------------------------------------------------ *)
(** * The end-to-end scenarios, evaluated *)
(* ------------------------------------------------------------------ *)

Section EndToEnd.
Import JS Eff Handler.

(** Scenario A: the provider accepts and assigns [abc123]. *)
Example scenario_A :
  outcome Scenario.accepting
          (serve Scenario.configured (Scenario.post Scenario.ada)) =
  inr {| status := 200;
         resp_headers :=
           corsHeaders ++ [("Content-Type", str "application/json")];
         body := Some [ ("success", JBool true);
                        ("message", JStr (str "Email sent successfully"));
                        ("id", JStr (str "abc123")) ] |}.
Proof. reflexivity. Qed.

(** Scenario B: the provider answers 422 [{message: "invalid from
    address"}]. *)
Example scenario_B :
  outcome Scenario.refusing
          (serve Scenario.configured (Scenario.post Scenario.ada)) =
  inr (Spec.error_response 500 "Failed to send email"
         (Some (str "invalid from address"))).
Proof. reflexivity. Qed.

(** The form-level scenario: with the address [not-an-email] the error is
    recorded, the status is the fixed validation message, and nothing is
    sent. *)
Example scenario_form :
  run Scenario.offline
      (Form.handleSubmit Scenario.form_env
         (Scenario.form_state "Ada" "not-an-email" ""
                              "Hello, this is a test message.")) =
  ( [ existT _ _ Form.PreventDefault ],
    inr {| Form.formData :=
             {| Form.name := str "Ada"; Form.email := str "not-an-email";
                Form.subject := [];
                Form.message := str "Hello, this is a test message." |};
           Form.isSubmitting := false;
           Form.submitStatus :=
             {| Form.type := Some Form.error;
                Form.status_message :=
                  str "Please fix the validation errors before submitting." |};
           Form.validationErrors :=
             {| Form.email_error :=
                  Some (str "Please enter a valid email address");
                Form.message_error := None |} |} ).
Proof. reflexivity. Qed.

End EndToEnd.

(* ------------------------------------------------------------------ *)
(** * After the dispatch: how the provider's answer is relayed *)
(* ------------------------------------------------------------------ *)

Section ProviderAnswer.
Import JS Eff Handler.

Lemma valid_inv (d : ContactFormData) :
  Spec.valid d = true ->
  truthy (name d) = true /\ truthy (email d) = true /\
  truthy (message d) = true /\
  test emailRegex (to_string (email d)) = true /\
  10 <= List.length (trim (to_string (message d))).
Proof.
  unfold Spec.valid. rewrite !andb_true_iff, Nat.leb_le. tauto.
Qed.

Variable env : Env.
Variable req : Request.
Variable d : ContactFormData.
Hypothesis Hpost : method req = str "POST".
Hypothesis Hjson : json req = inr d.
Hypothesis Hvalid : Spec.valid d = true.
Hypothesis Hkey : truthy (RESEND_API_KEY env) = true.
Hypothesis Hrenders : renders d = true.

Variable w : host HandlerE.

(** A valid submission under a configured key, whose mail can be built:
    the run asks the time, posts the mail, and goes on as [relay] does
    once the call has settled. *)
Lemma serve_valid_run :
  run w (serve env req) =
  (existT _ _ Now :: dispatch env d (@w _ Now)
     :: trace w (try_catch (relay (dispatch_answer w env d)) serve_catch),
   outcome w (try_catch (relay (dispatch_answer w env d)) serve_catch)).
Proof.
  destruct (valid_inv d Hvalid) as (Hname & Hemail & Hmessage & Hformat & L).
  apply (@serve_rendered_run env req d Hpost Hjson Hname Hemail Hmessage
           Hformat L Hkey w Hrenders).
Qed.

(** X1.  When the provider accepts the mail and answers with a JSON
    object, a valid submission whose mail could be built is answered 200
    with [{success: true, message: "Email sent successfully", id}], the
    [id] member holding what the provider's [id] held, [null] included,
    and being left out when the provider gave no such member; the run made
    the one call and logged nothing. *)
Theorem provider_accepts (m i : member) :
  dispatch_answer w env d
  = inr {| ok := true; response_json := inr (DataObject m i) |} ->
  run w (serve env req) =
  ( [ existT _ _ Now; dispatch env d (@w _ Now) ],
    inr {| status := 200;
           resp_headers :=
             corsHeaders ++ [("Content-Type", str "application/json")];
           body :=
             Some ([ ("success", JBool true);
                     ("message", JStr (str "Email sent successfully")) ]
                   ++ match i with
                      | Some v => [("id", v)]
                      | None => []
                      end) |} ).
Proof.
  intros Hans. rewrite serve_valid_run, Hans. destruct i; reflexivity.
Qed.

(** X2.  When the provider refuses the mail (a non-2xx answer holding a
    JSON object), the handler logs the provider's raw answer and responds
    500 [{error: "Failed to send email", details}], the details being the
    provider's [message] when that is truthy (a non-empty string, or
    [true]), and ["Unknown error"] when it is missing, [null], [false] or
    the empty string. *)
Theorem provider_refuses (m i : member) :
  dispatch_answer w env d
  = inr {| ok := false; response_json := inr (DataObject m i) |} ->
  run w (serve env req) =
  ( [ existT _ _ Now; dispatch env d (@w _ Now);
      existT _ _ (ConsoleError (LogResendError (DataObject m i))) ],
    inr {| status := 500;
           resp_headers :=
             corsHeaders ++ [("Content-Type", str "application/json")];
           body :=
             Some [ ("error", JStr (str "Failed to send email"));
                    ("details",
                     match m with
                     | Some (JStr (c :: s)) => JStr (c :: s)
                     | Some (JBool true) => JBool true
                     | Some (JStr []) | Some (JBool false) | Some JNull
                     | None => JStr (str "Unknown error")
                     end) ] |} ).
Proof.
  intros Hans. rewrite serve_valid_run, Hans.
  destruct m as [[[|c s]|[|]|]|]; reflexivity.
Qed.

(** X3.  For a valid submission whose mail could be built: when the call
    to the provider fails with an error, or when the provider's answer is
    not JSON, whatever its HTTP status (a mail the provider accepted
    included), the handler logs the error and responds
    500 [{error: "Internal server error", details}] with the error's
    message. *)
Theorem provider_call_throws (err : exn) :
  dispatch_answer w env d = inl err
  \/ (exists b, dispatch_answer w env d
                = inr {| ok := b; response_json := inl err |}) ->
  run w (serve env req) =
  ( [ existT _ _ Now; dispatch env d (@w _ Now);
      existT _ _ (ConsoleError (LogProcessing err)) ],
    inr (Spec.error_response 500 "Internal server error" (Some err)) ).
Proof.
  intros [Hans | [b Hans]]; rewrite serve_valid_run, Hans; reflexivity.
Qed.

(** X4.  The mail that is posted for a valid submission whose mail could
    be built: a POST authorised by the configured key, addressed to the
    one configured recipient, or to [info@neptrax.com] when none or an
    empty one is configured; replies go to the submitter's address, which
    has the e-mail format; and the message goes into the mail as it was
    received, untrimmed. *)
Theorem mail_envelope (key e m : jsstring) :
  RESEND_API_KEY env = Some key ->
  email d = Some e -> message d = Some m ->
  exists init,
    In (existT _ _ (Fetch "https://api.resend.com/emails" init))
       (trace w (serve env req)) /\
    fetch_method init = "POST"%string /\
    get (fetch_headers init) "Authorization" = Some (str "Bearer " ++ key) /\
    to (fetch_body init) =
      [ match RECEIVING_EMAIL env with
        | Some (c :: s) => c :: s
        | Some [] | None => str "info@neptrax.com"
        end ] /\
    reply_to (fetch_body init) = e /\ well_formed_email e /\
    html_message (html (fetch_body init)) = m.
Proof.
  intros Hk He Hm.
  destruct (valid_inv d Hvalid) as (_ & _ & _ & Hformat & _).
  exists (dispatch_init env d (@w _ Now)).
  unfold trace. rewrite serve_valid_run. cbn [fst].
  split; [right; left; reflexivity|].
  cbn [dispatch_init resend_request fetch_method fetch_headers fetch_body
       mail to reply_to html template html_message].
  rewrite Hk, He, Hm. rewrite He in Hformat. cbn [to_string] in *.
  repeat split.
  - destruct (RECEIVING_EMAIL env) as [[|c s]|]; reflexivity.
  - now apply emailRegex_test.
Qed.

End ProviderAnswer.

Section ProviderAnswerWitnesses.
Import JS Eff Handler.

Lemma provider_accepts_witness :
  outcome Scenario.accepting
          (serve Scenario.configured (Scenario.post Scenario.ada)) =
  inr {| status := 200;
         resp_headers :=
           corsHeaders ++ [("Content-Type", str "application/json")];
         body := Some [ ("success", JBool true);
                        ("message", JStr (str "Email sent successfully"));
                        ("id", JStr (str "abc123")) ] |}.
Proof.
  unfold outcome.
  rewrite (@provider_accepts Scenario.configured (Scenario.post Scenario.ada)
             Scenario.ada eq_refl eq_refl eq_refl eq_refl eq_refl
             Scenario.accepting None (Some (JStr (str "abc123"))) eq_refl).
  reflexivity.
Defined.

Lemma provider_refuses_witness :
  outcome Scenario.refusing
          (serve Scenario.configured (Scenario.post Scenario.ada)) =
  inr (Spec.error_response 500 "Failed to send email"
         (Some (str "invalid from address"))).
Proof.
  unfold outcome.
  rewrite (@provider_refuses Scenario.configured (Scenario.post Scenario.ada)
             Scenario.ada eq_refl eq_refl eq_refl eq_refl eq_refl
             Scenario.refusing
             (Some (JStr (str "invalid from address"))) None eq_refl).
  reflexivity.
Defined.

Lemma provider_call_throws_witness :
  outcome Scenario.garbled
          (serve Scenario.configured (Scenario.post Scenario.ada)) =
  inr (Spec.error_response 500 "Internal server error"
         (Some (str "Unexpected token < in JSON at position 0"))).
Proof.
  unfold outcome.
  rewrite (@provider_call_throws Scenario.configured
             (Scenario.post Scenario.ada) Scenario.ada eq_refl eq_refl
             eq_refl eq_refl eq_refl Scenario.garbled
             (str "Unexpected token < in JSON at position 0")
             (or_intror (ex_intro _ true eq_refl))).
  reflexivity.
Defined.

Lemma mail_envelope_witness :
  exists init,
    In (existT _ _ (Fetch "https://api.resend.com/emails" init))
       (trace Scenario.accepting
              (serve Scenario.configured (Scenario.post Scenario.ada))) /\
    to (fetch_body init) = [str "info@neptrax.com"] /\
    reply_to (fetch_body init) = str "ada@example.com".
Proof.
  destruct (@mail_envelope Scenario.configured (Scenario.post Scenario.ada)
              Scenario.ada eq_refl eq_refl eq_refl eq_refl eq_refl
              Scenario.accepting
              (str "re_test_key") (str "ada@example.com")
              (str "Hello, this is a test message.")
              eq_refl eq_refl eq_refl)
    as (init & Hin & _ & _ & Hto & Hreply & _).
  exists init. repeat split; assumption.
Defined.

End ProviderAnswerWitnesses.

(* ------------------------------------------------------------------ *)
(** * When the provider is called, and what a 200 means *)
(* ------------------------------------------------------------------ *)

Section Reach.
Import JS Eff Handler.

Lemma error_response_reply st (err : string) det :
  st = 400 \/ st = 405 \/ st = 500 -> str err <> [] ->
  is_json_reply (Spec.error_response st err det) /\
  error_first (Spec.error_response st err det).
Proof.
  intros St Hne. split.
  - split; [reflexivity|]. eexists. split; [reflexivity|].
    right. split; [exact St|]. exists (str err). left. reflexivity.
  - eexists. eexists. split; [reflexivity | exact Hne].
Qed.

(** A request is a preflight, or is answered by the handler alone (a
    check fails, or the mail cannot be built), or reaches the dispatch. *)
Lemma serve_cases (env : Env) (req : Request) (w : host HandlerE) :
  (method req = str "OPTIONS" /\ Spec.dispatches env req = false /\
   run w (serve env req) =
   ([], inr {| status := 200; resp_headers := corsHeaders; body := None |}))
  \/ (method req <> str "OPTIONS" /\ Spec.dispatches env req = false /\
      exists resp,
        outcome w (serve env req) = inr resp /\
        existsb is_fetch (trace w (serve env req)) = false /\
        (status resp = 400 \/ status resp = 405 \/ status resp = 500) /\
        is_json_reply resp /\ error_first resp /\
        (Spec.first_failure Spec.order env req = Some resp
         \/ (exists d, json req = inr d /\ Spec.valid d = true) /\
            resp = Spec.error_response 500 "Internal server error"
                     (Some (str "URI malformed"))))
  \/ (Spec.dispatches env req = true /\
      exists d, method req = str "POST" /\ json req = inr d /\
                Spec.valid d = true /\ truthy (RESEND_API_KEY env) = true /\
                renders d = true).
Proof.
  destruct (eqb (method req) (str "OPTIONS")) eqn:EO.
  { left. apply eqb_eq in EO. rewrite (serve_options env req EO).
    unfold Spec.dispatches. rewrite EO. repeat split. }
  apply eqb_neq in EO. right.
  destruct (Spec.first_failure Spec.order env req) as [resp|] eqn:FF.
  - left. destruct (@first_failure_shape env req _ FF)
      as (D & st & err & det & -> & St & Hne).
    destruct (@serve_first_failure env req _ w EO FF) as (Out & NF).
    destruct (@error_response_reply st err det St Hne) as (HJ & EF).
    split; [exact EO|]. split; [exact D|].
    eexists. split; [exact Out|]. split; [exact NF|].
    split; [exact St|]. split; [exact HJ|]. split; [exact EF|].
    left. reflexivity.
  - destruct (@first_failure_None env req FF) as (d & P & J & V & K).
    destruct (valid_inv d V) as (Hname & Hemail & Hmessage & Hformat & L).
    destruct (renders d) eqn:R.
    + right. split.
      * unfold Spec.dispatches. rewrite P, J, V, K, R. reflexivity.
      * exists d. repeat split; assumption.
    + left. split; [exact EO|]. split.
      * unfold Spec.dispatches. rewrite P, J, V, K, R. reflexivity.
      * unfold outcome, trace.
        rewrite (@serve_unrendered env req d P J Hname Hemail Hmessage
                   Hformat L K w R).
        cbn [fst snd].
        destruct (@error_response_reply 500 "Internal server error"
                    (Some (str "URI malformed")))
          as (HJ & EF); [auto | discriminate|].
        eexists. split; [reflexivity|]. split; [reflexivity|].
        split; [cbn; auto|]. split; [exact HJ|]. split; [exact EF|].
        right. split; [|reflexivity]. exists d. split; assumption.
Qed.

(** However the call settles, the rest of the run calls nobody and ends in
    a JSON response, a 200 only for an answer the provider marked as
    successful. *)
Lemma relay_cases (w : host HandlerE) (settled : exn + FetchResponse) :
  exists r,
    outcome w (try_catch (relay settled) serve_catch) = inr r /\
    filter is_fetch (trace w (try_catch (relay settled) serve_catch)) = [] /\
    is_json_reply r /\
    ((status r = 200 /\ exists resp, settled = inr resp /\ ok resp = true)
     \/ (status r = 500 /\ error_first r)).
Proof.
  assert (E : forall (err : string) v,
             is_json_reply
               (json_response 500 [ ("error", Some (JStr (str err)));
                                    ("details", Some v) ])).
  { intros err v. split; [reflexivity|]. eexists. split; [reflexivity|].
    right. split; [auto|]. eexists. left. reflexivity. }
  assert (F : forall (err : string) v,
             str err <> [] ->
             error_first
               (json_response 500 [ ("error", Some (JStr (str err)));
                                    ("details", Some v) ])).
  { intros err v Hne. eexists. eexists. split; [reflexivity | exact Hne]. }
  destruct settled as [err|[[|] [err|[|m i]]]]; cbn;
    eexists; (split; [reflexivity|]); (split; [reflexivity|]).
  - split; [apply (E "Internal server error" (JStr err))|].
    right. split; [reflexivity|].
    apply (F "Internal server error" (JStr err)). discriminate.
  - split; [apply (E "Internal server error" (JStr err))|].
    right. split; [reflexivity|].
    apply (F "Internal server error" (JStr err)). discriminate.
  - split; [apply (E "Internal server error" (JStr _))|].
    right. split; [reflexivity|].
    apply (F "Internal server error" (JStr _)). discriminate.
  - split.
    + split; [reflexivity|]. eexists. split; [reflexivity|].
      left. split; [reflexivity | left; reflexivity].
    + left. split; [reflexivity|]. eexists. split; reflexivity.
  - split; [apply (E "Internal server error" (JStr err))|].
    right. split; [reflexivity|].
    apply (F "Internal server error" (JStr err)). discriminate.
  - split; [apply (E "Internal server error" (JStr _))|].
    right. split; [reflexivity|].
    apply (F "Internal server error" (JStr _)). discriminate.
  - split; [apply (E "Failed to send email" (message_or_unknown m))|].
    right. split; [reflexivity|].
    apply (F "Failed to send email" (message_or_unknown m)). discriminate.
Qed.

Lemma existsb_filter_nil {A} (f : A -> bool) (l : list A) :
  existsb f l = false -> filter f l = [].
Proof.
  induction l as [|a l IH]; simpl; [reflexivity|].
  destruct (f a); simpl; [discriminate | exact IH].
Qed.

(** X5.  The handler calls the delivery provider at most once in a run,
    and it calls it exactly when the request is a POST whose body parses to
    a valid submission and the API key is configured; nothing is retried,
    however the call ends. *)
Theorem provider_called_iff_valid (env : Env) (req : Request)
        (w : host HandlerE) :
  List.length (filter is_fetch (trace w (serve env req))) =
  if Spec.dispatches env req then 1 else 0.
Proof.
  destruct (serve_cases env req w)
    as [(_ & -> & R) | [(_ & -> & resp & _ & NF & _)
                     | (-> & d & P & J & V & K & Rd)]].
  - unfold trace. now rewrite R.
  - now rewrite (existsb_filter_nil _ _ NF).
  - unfold trace. rewrite (@serve_valid_run env req d P J V K Rd w).
    cbn [fst].
    destruct (relay_cases w (dispatch_answer w env d)) as (r & _ & NF & _).
    cbn. now rewrite NF.
Qed.

(** X6.  A response with status 200 to a request that is not a preflight
    means the mail was handed over: the body parsed to a valid submission,
    the key was configured, the provider was called for it and marked its
    answer as successful. *)
Theorem success_only_after_provider_ok (env : Env) (req : Request)
        (w : host HandlerE) (r : Response) :
  method req <> str "OPTIONS" ->
  outcome w (serve env req) = inr r ->
  status r = 200 ->
  exists d resp,
    method req = str "POST" /\ json req = inr d /\
    Spec.valid d = true /\ truthy (RESEND_API_KEY env) = true /\
    In (dispatch env d (@w _ Now)) (trace w (serve env req)) /\
    dispatch_answer w env d = inr resp /\ ok resp = true.
Proof.
  intros HO Hout St.
  destruct (serve_cases env req w)
    as [(EO & _) | [(_ & _ & resp & Hout' & _ & St' & _)
                   | (_ & d & P & J & V & K & Rd)]].
  - contradiction.
  - rewrite Hout in Hout'. injection Hout' as <-. lia.
  - unfold outcome, trace in *.
    rewrite (@serve_valid_run env req d P J V K Rd w) in *.
    cbn [fst snd] in *.
    destruct (relay_cases w (dispatch_answer w env d))
      as (r' & Hout' & _ & _ & [(_ & resp & Hans & Hok) | (St' & _)]).
    + exists d, resp. repeat split; trivial. right. left. reflexivity.
    + rewrite Hout in Hout'. injection Hout' as <-. lia.
Qed.

Lemma success_only_after_provider_ok_witness :
  exists d resp,
    json (Scenario.post Scenario.ada) = inr d /\
    dispatch_answer Scenario.accepting Scenario.configured d = inr resp /\
    ok resp = true.
Proof.
  destruct (@success_only_after_provider_ok Scenario.configured
              (Scenario.post Scenario.ada) Scenario.accepting
              {| status := 200;
                 resp_headers :=
                   corsHeaders ++ [("Content-Type", str "application/json")];
                 body := Some [ ("success", JBool true);
                                ("message",
                                 JStr (str "Email sent successfully"));
                                ("id", JStr (str "abc123")) ] |})
    as (d & resp & _ & J & _ & _ & _ & A & O).
  - discriminate.
  - reflexivity.
  - reflexivity.
  - exists d, resp. repeat split; assumption.
Defined.

(** X7.  Every response to a request that is not a preflight is a JSON
    document: the content type is [application/json], the status is 200,
    400, 405 or 500, and the body is an object holding [success: true]
    under 200 and an [error] string under the other statuses. *)
Theorem responses_are_json (env : Env) (req : Request) (w : host HandlerE) :
  method req <> str "OPTIONS" ->
  exists r,
    outcome w (serve env req) = inr r /\
    get (resp_headers r) "Content-Type" = Some (str "application/json") /\
    exists members,
      body r = Some members /\
      ((status r = 200 /\ In ("success", JBool true) members) \/
       ((status r = 400 \/ status r = 405 \/ status r = 500) /\
        exists e, In ("error", JStr e) members)).
Proof.
  intros HO.
  destruct (serve_cases env req w)
    as [(EO & _) | [(_ & _ & resp & Hout & _ & _ & HJ & _)
                   | (_ & d & P & J & V & K & Rd)]].
  - contradiction.
  - exists resp. split; [exact Hout | exact HJ].
  - unfold outcome. rewrite (@serve_valid_run env req d P J V K Rd w).
    cbn [snd].
    destruct (relay_cases w (dispatch_answer w env d)) as (r & Hout & _ & HJ & _).
    exists r. split; [exact Hout | exact HJ].
Qed.

Lemma responses_are_json_witness :
  exists r,
    outcome Scenario.refusing
            (serve Scenario.configured (Scenario.post Scenario.ada)) = inr r /\
    get (resp_headers r) "Content-Type" = Some (str "application/json").
Proof.
  destruct (@responses_are_json Scenario.configured
              (Scenario.post Scenario.ada) Scenario.refusing)
    as (r & Hout & CT & _).
  - discriminate.
  - exists r. split; assumption.
Defined.

(** What becomes of a valid submission: it is answered 200 or 500, and the
    provider is called, once, when the key is configured and the mail can
    be built. *)
Lemma serve_valid_summary (env : Env) (req : Request) (d : ContactFormData)
      (w : host HandlerE) :
  method req = str "POST" -> json req = inr d -> Spec.valid d = true ->
  (exists r, outcome w (serve env req) = inr r /\
             (status r = 200 \/ status r = 500)) /\
  List.length (filter is_fetch (trace w (serve env req))) =
  if truthy (RESEND_API_KEY env) && renders d then 1 else 0.
Proof.
  intros P J V.
  destruct (valid_inv d V) as (Hname & Hemail & Hmessage & Hformat & L).
  destruct (truthy (RESEND_API_KEY env)) eqn:K.
  - split.
    + destruct (@serve_accepted env req d P J Hname Hemail Hmessage
                  Hformat L K w) as (rest & r & _ & Out & St).
      exists r. split; assumption.
    + cbn [andb]. destruct (renders d) eqn:R.
      * destruct (@serve_dispatch env req d P J Hname Hemail Hmessage
                    Hformat L K w R) as (rest & r & -> & NF & _).
        cbn. rewrite (existsb_filter_nil _ _ (no_fetch_existsb _ NF)).
        reflexivity.
      * unfold trace.
        rewrite (@serve_unrendered env req d P J Hname Hemail Hmessage
                   Hformat L K w R).
        reflexivity.
  - rewrite (@serve_no_key env req P d J Hname Hemail Hmessage Hformat L K).
    rewrite outcome_Vis, trace_Vis. cbn. split; [|reflexivity].
    eexists. split; [reflexivity|]. right. reflexivity.
Qed.

(** A message that is long enough is never answered "Message too short". *)
Lemma never_too_short (env : Env) (req : Request) (d : ContactFormData)
      (w : host HandlerE) :
  json req = inr d ->
  10 <= List.length (trim (to_string (message d))) ->
  outcome w (serve env req)
  <> inr (Spec.error_response 400 "Message too short"
            (Some (str "Message must be at least 10 characters long"))).
Proof.
  intros J L Hout.
  destruct (serve_cases env req w)
    as [(_ & _ & R) | [(_ & _ & resp & Hout' & _ & _ & _ & _ & [FF | [_ E]])
                      | (_ & d' & P & J' & V & K & Rd)]].
  - unfold outcome in Hout. rewrite R in Hout. discriminate.
  - rewrite Hout in Hout'. injection Hout' as <-. revert FF.
    unfold Spec.order, Spec.first_failure, Spec.failure, Spec.on_body.
    rewrite J. apply Nat.ltb_ge in L. rewrite L.
    destruct (eqb (method req) (str "POST")); [|discriminate].
    destruct (truthy (name d) && truthy (email d) && truthy (message d));
      [|discriminate].
    destruct (test emailRegex (to_string (email d))); [|discriminate].
    destruct (truthy (RESEND_API_KEY env)); discriminate.
  - rewrite Hout in Hout'. injection Hout' as <-. discriminate.
  - destruct (@serve_valid_summary env req d' w P J' V) as [(r & Out & St) _].
    rewrite Hout in Out. injection Out as <-. cbn in St.
    destruct St; discriminate.
Qed.

End Reach.

(* ------------------------------------------------------------------ *)
(** * What the message length check measures *)
(* ------------------------------------------------------------------ *)

Section Trimming.
Import JS Eff Handler.

Lemma trimStart_length s : List.length (trimStart s) <= List.length s.
Proof.
  induction s as [|c s IH]; simpl; [lia|].
  destruct (is_white_space c); simpl; lia.
Qed.

Lemma trim_length s : List.length (trim s) <= List.length s.
Proof.
  unfold trim, trimEnd. rewrite length_rev.
  etransitivity; [apply trimStart_length|].
  rewrite length_rev. apply trimStart_length.
Qed.

Lemma trimStart_app_blank a s :
  forallb is_white_space a = true -> trimStart (a ++ s) = trimStart s.
Proof.
  induction a as [|c a IH]; simpl; [reflexivity|].
  intros H. apply andb_true_iff in H as [-> H]. now apply IH.
Qed.

Lemma trimStart_fixed s :
  is_white_space (hd 0%N s) = false -> trimStart s = s.
Proof. destruct s as [|c s]; simpl; [reflexivity|]. now intros ->. Qed.

Lemma hd_rev (s : jsstring) d : hd d (rev s) = last s d.
Proof.
  induction s as [|c s IH]; [reflexivity|].
  simpl rev. destruct s as [|c' s]; [reflexivity|].
  change (last (c :: c' :: s) d) with (last (c' :: s) d). rewrite <- IH.
  simpl rev. destruct (rev s ++ [c']) eqn:E; [|reflexivity].
  destruct (rev s); discriminate.
Qed.

Lemma forallb_blank_rev s :
  forallb is_white_space s = true -> forallb is_white_space (rev s) = true.
Proof.
  rewrite !forallb_forall. intros H c Hin. apply H. now apply in_rev.
Qed.

Lemma last_app_ne (s1 s2 : jsstring) d :
  s2 <> [] -> last (s1 ++ s2) d = last s2 d.
Proof.
  intros Hne. induction s1 as [|c s1 IH]; [reflexivity|].
  cbn [app]. destruct (s1 ++ s2) eqn:E.
  - destruct s1; [simpl in E; contradiction | discriminate].
  - exact IH.
Qed.

(** [trim] strips the blanks around a text that neither starts nor ends
    with one, and nothing else. *)
Lemma trim_core a core b :
  forallb is_white_space a = true ->
  forallb is_white_space b = true ->
  is_white_space (hd 0%N core) = false ->
  is_white_space (last core 0%N) = false ->
  trim (a ++ core ++ b) = core.
Proof.
  intros Ha Hb Hhd Hlast. unfold trim, trimEnd.
  rewrite (trimStart_app_blank a _ Ha).
  destruct core as [|c core].
  - simpl. rewrite (trimStart_blank b Hb). reflexivity.
  - rewrite (trimStart_fixed ((c :: core) ++ b)) by exact Hhd.
    rewrite rev_app_distr.
    rewrite trimStart_app_blank by (now apply forallb_blank_rev).
    rewrite trimStart_fixed by (now rewrite hd_rev).
    apply rev_involutive.
Qed.

Variable env : Env.
Variable req : Request.
Variable d : ContactFormData.
Hypothesis Hpost : method req = str "POST".
Hypothesis Hjson : json req = inr d.
Hypothesis Hname : truthy (name d) = true.
Hypothesis Hemail : truthy (email d) = true.
Hypothesis Hformat : test emailRegex (to_string (email d)) = true.

(** X8.  Trimming never lengthens: in a request that passes the earlier
    checks, a message of fewer than 10 code units is answered "Message too
    short", whatever it holds. *)
Theorem short_message_rejected (m : jsstring) :
  message d = Some m -> m <> [] ->
  List.length m < 10 ->
  serve env req =
  Ret (Spec.error_response 400 "Message too short"
         (Some (str "Message must be at least 10 characters long"))).
Proof.
  intros Hm Hne L.
  apply (@serve_too_short env req Hpost d Hjson); trivial.
  - rewrite Hm. now apply truthy_Some.
  - rewrite Hm. cbn [to_string]. pose proof (trim_length m). lia.
Qed.

(** X9.  The length check measures the message without the blanks around
    it, blanks inside counting: for a message made of leading blanks, a
    text that neither starts nor ends with a blank, and trailing blanks, a
    request that passes the earlier checks is answered "Message too short"
    when the text has fewer than 10 code units; otherwise the handler never
    answers "Message too short", and it calls the provider, once, exactly
    when the API key is configured and the mail can be built. *)
Theorem padded_message_judged_by_core (a core b : jsstring) :
  message d = Some (a ++ core ++ b) -> a ++ core ++ b <> [] ->
  forallb is_white_space a = true ->
  forallb is_white_space b = true ->
  is_white_space (hd 0%N core) = false ->
  is_white_space (last core 0%N) = false ->
  (List.length core < 10 ->
   serve env req =
   Ret (Spec.error_response 400 "Message too short"
          (Some (str "Message must be at least 10 characters long"))))
  /\ (10 <= List.length core ->
      forall w,
        outcome w (serve env req)
        <> inr (Spec.error_response 400 "Message too short"
                  (Some (str "Message must be at least 10 characters long")))
        /\ List.length (filter is_fetch (trace w (serve env req))) =
           if truthy (RESEND_API_KEY env) && renders d then 1 else 0).
Proof.
  intros Hm Hne Ha Hb Hhd Hlast.
  assert (Hmessage : truthy (message d) = true)
    by (rewrite Hm; now apply truthy_Some).
  assert (T : trim (to_string (message d)) = core)
    by (rewrite Hm; now apply trim_core).
  split; intros L.
  - apply (@serve_too_short env req Hpost d Hjson); trivial.
    now rewrite T.
  - intros w. rewrite <- T in L.
    destruct (truthy (RESEND_API_KEY env)) eqn:K.
    + destruct (@serve_accepted env req d Hpost Hjson Hname Hemail Hmessage
                  Hformat L K w) as (rest & r & _ & Out & St).
      split.
      * rewrite Out. intros H. injection H as ->. cbn in St.
        destruct St; discriminate.
      * cbn [andb]. destruct (renders d) eqn:R.
        -- destruct (@serve_dispatch env req d Hpost Hjson Hname Hemail
                       Hmessage Hformat L K w R)
             as (rest' & r' & -> & NF & _).
           cbn. now rewrite (existsb_filter_nil _ _ (no_fetch_existsb _ NF)).
        -- unfold trace.
           rewrite (@serve_unrendered env req d Hpost Hjson Hname Hemail
                      Hmessage Hformat L K w R).
           reflexivity.
    + rewrite (@serve_no_key env req Hpost d Hjson Hname Hemail Hmessage
                 Hformat L K).
      rewrite outcome_Vis, trace_Vis. cbn. split; [discriminate | reflexivity].
Qed.

End Trimming.

Section TrimmingWitnesses.
Import JS Eff Handler.

Lemma short_message_rejected_witness :
  serve Scenario.configured
        (Scenario.post
           (Scenario.submission "Bob" "bob@example.com" None "123456789")) =
  Ret (Spec.error_response 400 "Message too short"
         (Some (str "Message must be at least 10 characters long"))).
Proof.
  apply (@short_message_rejected Scenario.configured
           (Scenario.post
              (Scenario.submission "Bob" "bob@example.com" None "123456789"))
           (Scenario.submission "Bob" "bob@example.com" None "123456789")
           eq_refl eq_refl eq_refl eq_refl eq_refl (str "123456789") eq_refl).
  - discriminate.
  - cbn. lia.
Defined.

Lemma padded_message_judged_by_core_witness :
  serve Scenario.configured
        (Scenario.post
           (Scenario.submission "Bob" "bob@example.com" None
                                "   hi there     ")) =
  Ret (Spec.error_response 400 "Message too short"
         (Some (str "Message must be at least 10 characters long"))).
Proof.
  apply (@padded_message_judged_by_core Scenario.configured
           (Scenario.post
              (Scenario.submission "Bob" "bob@example.com" None
                                   "   hi there     "))
           (Scenario.submission "Bob" "bob@example.com" None
                                "   hi there     ")
           eq_refl eq_refl eq_refl eq_refl eq_refl
           (str "   ") (str "hi there") (str "     ") eq_refl).
  - discriminate.
  - reflexivity.
  - reflexivity.
  - reflexivity.
  - reflexivity.
  - cbn. lia.
Defined.

End TrimmingWitnesses.

(* ------------------------------------------------------------------ *)
(** * What an accepted address looks like *)
(* ------------------------------------------------------------------ *)

Section Address.
Import JS.

Lemma plain_no_at l :
  forallb plain l = true -> count_occ N.eq_dec l AT = 0.
Proof.
  induction l as [|c l IH]; simpl; [reflexivity|].
  unfold plain at 1. rewrite !andb_true_iff. intros [[_ Hc] Hl].
  apply negb_true_iff, N.eqb_neq in Hc.
  destruct (N.eq_dec c AT); [contradiction | now apply IH].
Qed.

(** X10.  An address that [emailRegex] accepts holds exactly one [@], no
    whitespace code unit, and at least 5 code units; its first and its last
    code unit are not [@]. *)
Theorem accepted_address_facts (e : jsstring) :
  test emailRegex e = true ->
  count_occ N.eq_dec e AT = 1 /\
  (forall c, In c e -> is_white_space c = false) /\
  5 <= List.length e /\
  hd AT e <> AT /\ last e AT <> AT.
Proof.
  intros H. pose proof (emailRegex_email_shape e H) as S.
  apply emailRegex_test in H.
  destruct H as (l & dm & t & -> & Hl & Hd & Ht & Fl & Fd & Ft).
  split; [|split; [|split; [|split]]].
  - rewrite count_occ_app. cbn [count_occ].
    destruct (N.eq_dec AT AT) as [_|N]; [|contradiction].
    rewrite count_occ_app. cbn [count_occ].
    destruct (N.eq_dec DOT AT) as [E|_]; [discriminate|].
    rewrite !plain_no_at by assumption. reflexivity.
  - intros c Hin. unfold Spec.email_shape in S.
    apply andb_true_iff in S as [_ S]. rewrite forallb_forall in S.
    apply negb_true_iff. now apply S.
  - rewrite length_app. cbn [List.length]. rewrite length_app.
    cbn [List.length].
    destruct l; [contradiction|]. destruct dm; [contradiction|].
    destruct t; [contradiction|]. cbn [List.length]. lia.
  - destruct l as [|c l]; [contradiction|]. cbn.
    cbn in Fl. unfold plain at 1 in Fl. rewrite !andb_true_iff in Fl.
    destruct Fl as [[_ Hc] _]. now apply negb_true_iff, N.eqb_neq in Hc.
  - rewrite last_app_ne by discriminate.
    change (AT :: dm ++ DOT :: t) with ((AT :: dm) ++ DOT :: t).
    rewrite last_app_ne by discriminate.
    change (DOT :: t) with ([DOT] ++ t).
    rewrite last_app_ne by assumption.
    destruct (exists_last Ht) as (t' & c & ->).
    rewrite last_last. rewrite forallb_app in Ft.
    apply andb_true_iff in Ft as [_ Fc]. cbn in Fc.
    unfold plain in Fc. rewrite andb_true_r, andb_true_iff in Fc.
    destruct Fc as [_ Hc]. now apply negb_true_iff, N.eqb_neq in Hc.
Qed.

Lemma accepted_address_facts_witness :
  count_occ N.eq_dec (str "ada@example.com") AT = 1.
Proof.
  apply (@accepted_address_facts (str "ada@example.com") eq_refl).
Defined.

End Address.

(* ------------------------------------------------------------------ *)
(** * Editing the form *)
(* ------------------------------------------------------------------ *)

Section Editing.
Import JS Eff Form.

(** X11.  [handleChange] writes the value into the field it is called for
    and into no other; it touches neither the submitting flag nor the
    status. *)
Theorem handleChange_sets_field (f : Field) (v : jsstring) (st : State) :
  field f (formData (handleChange f v st)) = v /\
  (forall g, g <> f ->
             field g (formData (handleChange f v st)) = field g (formData st)) /\
  isSubmitting (handleChange f v st) = isSubmitting st /\
  submitStatus (handleChange f v st) = submitStatus st.
Proof.
  unfold handleChange.
  destruct (truthy (error_of f (validationErrors st)));
    (split; [destruct f; reflexivity|]);
    (split; [intros g Hg; destruct f, g; try reflexivity; contradiction|]);
    split; reflexivity.
Qed.

(** X12.  After [handleChange] no error shows for the field that was
    edited, whether or not the new value is valid (the error is not
    computed again until the next [validateForm]), and the error of the
    other field stays as it was. *)
Theorem handleChange_clears_error (f : Field) (v : jsstring) (st : State) :
  truthy (error_of f (validationErrors (handleChange f v st))) = false /\
  (forall g, g <> f ->
             error_of g (validationErrors (handleChange f v st))
             = error_of g (validationErrors st)).
Proof.
  unfold handleChange.
  destruct (truthy (error_of f (validationErrors st))) eqn:T.
  - split; [destruct f; reflexivity|].
    intros g Hg; destruct f, g; try reflexivity; contradiction.
  - split; [exact T|]. intros g Hg. reflexivity.
Qed.

(** X13.  Edits compose as writes do: of two edits of one field the later
    wins, and edits of different fields commute. *)
Theorem handleChange_compose (f g : Field) (u v : jsstring) (st : State) :
  handleChange f v (handleChange f u st) = handleChange f v st /\
  (f <> g ->
   handleChange f v (handleChange g u st)
   = handleChange g u (handleChange f v st)).
Proof.
  destruct st as [fd sub stat [ee me]]. split.
  - destruct f; unfold handleChange; cbn;
      try reflexivity;
      [destruct ee as [[|c s]|] | destruct me as [[|c s]|]]; reflexivity.
  - intros Hfg.
    destruct f, g; try contradiction; unfold handleChange; cbn;
      try reflexivity;
      destruct ee as [[|c s]|]; cbn; try reflexivity;
      destruct me as [[|c' s']|]; reflexivity.
Qed.

Lemma handleChange_compose_witness :
  handleChange FEmail (str "ada@example.com")
    (handleChange FMessage (str "Hello")
       (Scenario.form_state "Ada" "" "" "")) =
  handleChange FMessage (str "Hello")
    (handleChange FEmail (str "ada@example.com")
       (Scenario.form_state "Ada" "" "" "")).
Proof.
  apply (proj2 (handleChange_compose FEmail FMessage (str "Hello")
                  (str "ada@example.com")
                  (Scenario.form_state "Ada" "" "" ""))).
  discriminate.
Defined.

Lemma handleChange_sets_field_witness :
  field FEmail
        (formData (handleChange FEmail (str "ada@example.com")
                     (Scenario.form_state "Ada" "" "" "Hello")))
  = str "ada@example.com" /\
  field FMessage
        (formData (handleChange FEmail (str "ada@example.com")
                     (Scenario.form_state "Ada" "" "" "Hello")))
  = str "Hello".
Proof.
  split.
  - apply (proj1 (handleChange_sets_field FEmail (str "ada@example.com")
                    (Scenario.form_state "Ada" "" "" "Hello"))).
  - apply (proj1 (proj2 (handleChange_sets_field FEmail
                           (str "ada@example.com")
                           (Scenario.form_state "Ada" "" "" "Hello")))
             FMessage).
    discriminate.
Defined.

Lemma handleChange_clears_error_witness :
  error_of FMessage
    (validationErrors
       (handleChange FEmail (str "still-not-an-email")
          (snd (validateForm
                  (Scenario.form_state "Ada" "not-an-email" "" "short")))))
  = Some (str "Message must be at least 10 characters long").
Proof.
  rewrite (proj2 (handleChange_clears_error FEmail (str "still-not-an-email")
                    (snd (validateForm
                            (Scenario.form_state "Ada" "not-an-email" ""
                                                 "short"))))
             FMessage).
  - reflexivity.
  - discriminate.
Defined.

End Editing.

(* ------------------------------------------------------------------ *)
(** * Submitting the form *)
(* ------------------------------------------------------------------ *)

Section Submitting.
Import JS Eff Form.

(** A form that passes [validateForm] has no error recorded by it. *)
Lemma validateForm_pass (st : State) :
  fst (validateForm st) = true ->
  validateForm st = (true, setValidationErrors no_errors st).
Proof.
  unfold validateForm.
  destruct (truthy (Some (email (formData st)))
            && negb (test emailRegex (email (formData st))));
    destruct (truthy (Some (message (formData st)))
              && (List.length (trim (message (formData st))) <? 10)%nat);
    cbn; intros H; try discriminate; reflexivity.
Qed.

(** A submit that passes [validateForm] makes its one call and goes on
    as [settle] does. *)
Lemma handleSubmit_valid_run (env : ImportMetaEnv) (st : State)
      (w : host FormE) :
  fst (validateForm st) = true ->
  run w (handleSubmit env st) =
  ( [ existT _ _ PreventDefault;
      existT _ _ (Fetch (apiUrl env) (post env (formData st))) ],
    outcome w
      (settle (setSubmitStatus {| type := None; status_message := [] |}
                 (setIsSubmitting true (setValidationErrors no_errors st)))
              (@w _ (Fetch (apiUrl env) (post env (formData st))))) ).
Proof.
  intros V. unfold handleSubmit, settle, outcome.
  rewrite (validateForm_pass st V).
  cbn [negb bind trigger try_catch]. rewrite !run_Vis.
  destruct (@w _ (Fetch _ _)) as [err|[[|] [err|[|e]]]]; reflexivity.
Qed.

Variable env : ImportMetaEnv.
Variable st : State.
Hypothesis Hvalid : fst (validateForm st) = true.
Variable w : host FormE.

(** X14.  When the endpoint answers with a 2xx status and a JSON body, the
    submit ends with the success message, the four fields emptied, no
    validation error and the submitting flag down, after one POST of the
    field values. *)
Theorem submit_success (data : ResponseData) :
  @w _ (Fetch (apiUrl env) (post env (formData st)))
  = inr {| ok := true; response_json := inr data |} ->
  run w (handleSubmit env st) =
  ( [ existT _ _ PreventDefault;
      existT _ _ (Fetch (apiUrl env) (post env (formData st))) ],
    inr {| formData := {| name := []; email := []; subject := [];
                          message := [] |};
           isSubmitting := false;
           submitStatus :=
             {| type := Some success;
                status_message :=
                  str "Thank you for your message! We will get back to you soon." |};
           validationErrors := no_errors |} ).
Proof.
  intros Hans. unfold handleSubmit.
  rewrite (validateForm_pass st Hvalid).
  cbn [negb bind trigger try_catch]. rewrite !run_Vis. rewrite Hans.
  reflexivity.
Qed.

(** X15.  When the endpoint answers with a non-2xx status and a JSON
    object, the submit ends with an error status showing the object's
    [error] member, or "Failed to send message. Please try again." when
    that member is missing or empty; the fields keep what the user typed
    and the submitting flag is down. *)
Theorem submit_http_failure (e : value) :
  @w _ (Fetch (apiUrl env) (post env (formData st)))
  = inr {| ok := false; response_json := inr (DataObject e) |} ->
  run w (handleSubmit env st) =
  ( [ existT _ _ PreventDefault;
      existT _ _ (Fetch (apiUrl env) (post env (formData st))) ],
    inr {| formData := formData st;
           isSubmitting := false;
           submitStatus :=
             {| type := Some error;
                status_message :=
                  match e with
                  | Some (c :: s) => c :: s
                  | Some [] | None =>
                      str "Failed to send message. Please try again."
                  end |};
           validationErrors := no_errors |} ).
Proof.
  intros Hans. unfold handleSubmit.
  rewrite (validateForm_pass st Hvalid).
  cbn [negb bind trigger try_catch]. rewrite !run_Vis. rewrite Hans.
  destruct e as [[|c s]|]; reflexivity.
Qed.

(** X16.  When the call fails, when the answer is not JSON (whatever its
    status), or when a non-2xx answer holds [null], the submit ends with
    "Network error. Please check your connection and try again."; the
    fields keep what the user typed and the submitting flag is down. *)
Theorem submit_network_error :
  (exists err,
      @w _ (Fetch (apiUrl env) (post env (formData st))) = inl err)
  \/ (exists b err,
         @w _ (Fetch (apiUrl env) (post env (formData st)))
         = inr {| ok := b; response_json := inl err |})
  \/ @w _ (Fetch (apiUrl env) (post env (formData st)))
     = inr {| ok := false; response_json := inr DataNull |} ->
  run w (handleSubmit env st) =
  ( [ existT _ _ PreventDefault;
      existT _ _ (Fetch (apiUrl env) (post env (formData st))) ],
    inr {| formData := formData st;
           isSubmitting := false;
           submitStatus :=
             {| type := Some error;
                status_message :=
                  str "Network error. Please check your connection and try again." |};
           validationErrors := no_errors |} ).
Proof.
  intros Hans. unfold handleSubmit.
  rewrite (validateForm_pass st Hvalid).
  cbn [negb bind trigger try_catch]. rewrite !run_Vis.
  destruct Hans as [[err ->] | [(b & err & ->) | ->]];
    try destruct b; reflexivity.
Qed.

End Submitting.

Section SubmittingWitnesses.
Import JS Eff Form.

Lemma submit_success_witness :
  outcome Scenario.endpoint_ok
    (handleSubmit Scenario.form_env
       (Scenario.form_state "Ada" "ada@example.com" ""
                            "Hello, this is a test message.")) =
  inr {| formData := {| name := []; email := []; subject := [];
                        message := [] |};
         isSubmitting := false;
         submitStatus :=
           {| type := Some success;
              status_message :=
                str "Thank you for your message! We will get back to you soon." |};
         validationErrors := no_errors |}.
Proof.
  unfold outcome.
  rewrite (@submit_success Scenario.form_env
             (Scenario.form_state "Ada" "ada@example.com" ""
                                  "Hello, this is a test message.")
             eq_refl Scenario.endpoint_ok (DataObject None) eq_refl).
  reflexivity.
Defined.

Lemma submit_http_failure_witness :
  outcome Scenario.endpoint_rejects
    (handleSubmit Scenario.form_env
       (Scenario.form_state "Ada" "ada@example.com" ""
                            "Hello, this is a test message.")) =
  inr {| formData :=
           formData (Scenario.form_state "Ada" "ada@example.com" ""
                                         "Hello, this is a test message.");
         isSubmitting := false;
         submitStatus :=
           {| type := Some error;
              status_message := str "Invalid email format" |};
         validationErrors := no_errors |}.
Proof.
  unfold outcome.
  rewrite (@submit_http_failure Scenario.form_env
             (Scenario.form_state "Ada" "ada@example.com" ""
                                  "Hello, this is a test message.")
             eq_refl Scenario.endpoint_rejects
             (Some (str "Invalid email format")) eq_refl).
  reflexivity.
Defined.

Lemma submit_network_error_witness :
  outcome Scenario.offline
    (handleSubmit Scenario.form_env
       (Scenario.form_state "Ada" "ada@example.com" ""
                            "Hello, this is a test message.")) =
  inr {| formData :=
           formData (Scenario.form_state "Ada" "ada@example.com" ""
                                         "Hello, this is a test message.");
         isSubmitting := false;
         submitStatus :=
           {| type := Some error;
              status_message :=
                str "Network error. Please check your connection and try again." |};
         validationErrors := no_errors |}.
Proof.
  unfold outcome.
  rewrite (@submit_network_error Scenario.form_env
             (Scenario.form_state "Ada" "ada@example.com" ""
                                  "Hello, this is a test message.")
             eq_refl Scenario.offline
             (or_introl (ex_intro _ (str "Failed to fetch") eq_refl))).
  reflexivity.
Defined.

End SubmittingWitnesses.

Section SubmitAlways.
Import JS Eff Form.

(** X17.  Whatever the state and however the host behaves, a submit ends
    (no error escapes it) with a status shown; the fields are emptied when
    the status is the success and keep what the user typed when it is an
    error; at most one request is sent, none being retried; and the
    submitting flag is down at the end of every submit that passed
    [validateForm], while a submit that failed it leaves the flag as it
    was. *)
Theorem submit_invariant (env : ImportMetaEnv) (st : State) (w : host FormE) :
  exists st',
    outcome w (handleSubmit env st) = inr st' /\
    (type (submitStatus st') = Some success
     /\ formData st' = {| name := []; email := []; subject := [];
                          message := [] |}
     \/ type (submitStatus st') = Some error /\ formData st' = formData st) /\
    List.length (filter is_fetch (trace w (handleSubmit env st))) <= 1 /\
    isSubmitting st' =
      (if fst (validateForm st) then false else isSubmitting st).
Proof.
  destruct (fst (validateForm st)) eqn:V.
  - unfold outcome, trace, handleSubmit.
    rewrite (validateForm_pass st V).
    cbn [negb bind trigger try_catch]. rewrite !run_Vis.
    destruct (@w _ (Fetch _ _)) as [err|[[|] [err|[|e]]]];
      cbn; eexists; (split; [reflexivity|]); cbn; repeat split; auto.
  - unfold outcome, trace. rewrite (handleSubmit_invalid env st V).
    rewrite !run_Vis. cbn. eexists. split; [reflexivity|]. cbn.
    repeat split; auto.
Qed.

End SubmitAlways.

(* ------------------------------------------------------------------ *)
(** * The form and the handler together *)
(* ------------------------------------------------------------------ *)

Section Together.
Import JS Eff.

(** X18.  The form's validation is what the handler asks for, short of
    the required fields: when [validateForm] passes on a form whose name,
    address and message are not empty, the handler, given the body the
    form posts, rejects nothing: it never answers 400 (the answer is a 200
    or a 500), and it calls the provider, once, exactly when its API key is
    configured and the mail can be built. *)
Theorem client_check_suffices (env : Form.ImportMetaEnv) (st : Form.State)
        (henv : Handler.Env) :
  fst (Form.validateForm st) = true ->
  Form.name (Form.formData st) <> [] ->
  Form.email (Form.formData st) <> [] ->
  Form.message (Form.formData st) <> [] ->
  exists d,
    Handler.json (Wire.deliver (Form.post env (Form.formData st))) = inr d /\
    Spec.valid d = true /\
    forall w,
      (exists r,
          outcome w (Handler.serve henv
                       (Wire.deliver (Form.post env (Form.formData st))))
          = inr r /\
          (Handler.status r = 200 \/ Handler.status r = 500)) /\
      List.length
        (filter Handler.is_fetch
           (trace w (Handler.serve henv
                       (Wire.deliver (Form.post env (Form.formData st))))))
      = if truthy (Handler.RESEND_API_KEY henv) && Handler.renders d
        then 1 else 0.
Proof.
  intros V Hn He Hm.
  apply truthy_Some in Hn, He, Hm.
  unfold Form.validateForm in V. rewrite He, Hm in V. cbn [andb fst] in V.
  destruct (test emailRegex (Form.email (Form.formData st))) eqn:T;
    [|destruct (List.length (trim (Form.message (Form.formData st))) <? 10)%nat;
      discriminate].
  destruct (List.length (trim (Form.message (Form.formData st))) <? 10)%nat
    eqn:L; [discriminate|].
  apply Nat.ltb_ge, Nat.leb_le in L.
  assert (Hv : Spec.valid
                 {| Handler.name := Some (Form.name (Form.formData st));
                    Handler.email := Some (Form.email (Form.formData st));
                    Handler.subject := Some (Form.subject (Form.formData st));
                    Handler.message := Some (Form.message (Form.formData st)) |}
               = true).
  { unfold Spec.valid.
    cbn [Handler.name Handler.email Handler.message to_string].
    now rewrite Hn, He, Hm, T, L. }
  eexists. split; [reflexivity|]. split; [exact Hv|].
  intros w. apply serve_valid_summary; [reflexivity | reflexivity | exact Hv].
Qed.

(** X19.  The form never holds back a submission the handler would take:
    when [validateForm] fails, the handler, given the same field values,
    answers 400 without calling anyone, whatever its configuration. *)
Theorem client_rejection_sound (env : Form.ImportMetaEnv) (st : Form.State) :
  fst (Form.validateForm st) = false ->
  exists r,
    Handler.status r = 400 /\
    forall henv,
      Handler.serve henv (Wire.deliver (Form.post env (Form.formData st)))
      = Ret r.
Proof.
  intros V.
  set (req := Wire.deliver (Form.post env (Form.formData st))).
  set (d := {| Handler.name := Some (Form.name (Form.formData st));
               Handler.email := Some (Form.email (Form.formData st));
               Handler.subject := Some (Form.subject (Form.formData st));
               Handler.message := Some (Form.message (Form.formData st)) |}).
  assert (P : Handler.method req = str "POST") by reflexivity.
  assert (J : Handler.json req = inr d) by reflexivity.
  destruct (truthy (Handler.name d) && truthy (Handler.email d)
            && truthy (Handler.message d)) eqn:Req.
  2:{ eexists. split; [|intros henv;
        apply (@serve_missing henv req P d J Req)]. reflexivity. }
  apply andb_true_iff in Req as [Req Hmessage].
  apply andb_true_iff in Req as [Hname Hemail].
  destruct (test emailRegex (to_string (Handler.email d))) eqn:T.
  2:{ eexists. split; [|intros henv;
        apply (@serve_invalid_email henv req P d J Hname Hemail Hmessage T)].
      reflexivity. }
  destruct (Nat.lt_ge_cases
              (List.length (trim (to_string (Handler.message d)))) 10)
    as [L|L].
  { eexists. split; [|intros henv;
      apply (@serve_too_short henv req P d J Hname Hemail Hmessage T L)].
    reflexivity. }
  exfalso. unfold d in *. cbn [Handler.email Handler.message to_string] in *.
  apply Nat.ltb_ge in L.
  unfold Form.validateForm in V. rewrite T, L in V.
  rewrite !andb_false_r in V. discriminate.
Qed.

Lemma client_check_suffices_witness :
  exists d,
    Handler.json
      (Wire.deliver
         (Form.post Scenario.form_env
            (Form.formData
               (Scenario.form_state "Ada" "ada@example.com" ""
                                    "Hello, this is a test message."))))
    = inr d /\ Spec.valid d = true.
Proof.
  destruct (@client_check_suffices Scenario.form_env
              (Scenario.form_state "Ada" "ada@example.com" ""
                                   "Hello, this is a test message.")
              Scenario.configured eq_refl
              ltac:(discriminate) ltac:(discriminate) ltac:(discriminate))
    as (d & J & V & _).
  exists d. split; assumption.
Defined.

Lemma client_rejection_sound_witness :
  exists r,
    Handler.status r = 400 /\
    Handler.serve Scenario.configured
      (Wire.deliver
         (Form.post Scenario.form_env
            (Form.formData
               (Scenario.form_state "Ada" "not-an-email" ""
                                    "Hello, this is a test message."))))
    = Ret r.
Proof.
  destruct (@client_rejection_sound Scenario.form_env
              (Scenario.form_state "Ada" "not-an-email" ""
                                   "Hello, this is a test message.")
              eq_refl) as (r & St & H).
  exists r. split; [exact St | apply H].
Defined.

(** The form's reading of a response of the handler that carries an error. *)
Lemma reply_error (r : Handler.Response) :
  Handler.status r = 400 \/ Handler.status r = 405 \/ Handler.status r = 500 ->
  Handler.error_first r ->
  exists e, e <> [] /\
    Wire.reply r =
    {| Form.ok := false;
       Form.response_json := inr (Form.DataObject (Some e)) |} /\
    exists members, Handler.body r = Some (("error", Handler.JStr e) :: members).
Proof.
  intros St (e & ms & B & Hne). exists e. split; [exact Hne|].
  split; [|exists ms; exact B].
  unfold Wire.reply. rewrite B.
  destruct St as [-> | [-> | ->]]; reflexivity.
Qed.

(** X20.  End to end, with the form's request reaching the handler: a
    submit that passes [validateForm] ends with the success message and
    emptied fields exactly when the handler answers 200; otherwise the
    status shows the [error] string of the handler's response, and the
    fields keep what the user typed. *)
Theorem end_to_end (env : Form.ImportMetaEnv) (st : Form.State)
        (henv : Handler.Env) (w : host Handler.HandlerE) :
  fst (Form.validateForm st) = true ->
  exists r st',
    outcome w (Handler.serve henv
                 (Wire.deliver (Form.post env (Form.formData st)))) = inr r /\
    outcome (Wire.browser henv w) (Form.handleSubmit env st) = inr st' /\
    ((Handler.status r = 200 /\
      Form.type (Form.submitStatus st') = Some Form.success /\
      Form.formData st' =
      {| Form.name := []; Form.email := []; Form.subject := [];
         Form.message := [] |})
     \/
     (Handler.status r <> 200 /\
      exists e members,
        Handler.body r = Some (("error", Handler.JStr e) :: members) /\
        Form.submitStatus st' =
        {| Form.type := Some Form.error; Form.status_message := e |} /\
        Form.formData st' = Form.formData st)).
Proof.
  intros V.
  set (req := Wire.deliver (Form.post env (Form.formData st))).
  assert (Hrun : forall r,
             outcome w (Handler.serve henv req) = inr r ->
             outcome (Wire.browser henv w) (Form.handleSubmit env st) =
             outcome (Wire.browser henv w)
               (Form.settle
                  (Form.setSubmitStatus
                     {| Form.type := None; Form.status_message := [] |}
                     (Form.setIsSubmitting true
                        (Form.setValidationErrors Form.no_errors st)))
                  (inr (Wire.reply r)))).
  { intros r Hout. unfold outcome.
    rewrite (@handleSubmit_valid_run env st (Wire.browser henv w) V).
    cbn [snd].
    cbn [Wire.browser]. fold req. unfold outcome in Hout |- *.
    rewrite Hout. reflexivity. }
  assert (Herr : forall r,
             outcome w (Handler.serve henv req) = inr r ->
             Handler.status r = 400 \/ Handler.status r = 405
             \/ Handler.status r = 500 ->
             Handler.error_first r ->
             exists st',
               outcome (Wire.browser henv w) (Form.handleSubmit env st)
               = inr st' /\
               Handler.status r <> 200 /\
               exists e members,
                 Handler.body r = Some (("error", Handler.JStr e) :: members) /\
                 Form.submitStatus st' =
                 {| Form.type := Some Form.error; Form.status_message := e |} /\
                 Form.formData st' = Form.formData st).
  { intros r Hout St EF.
    destruct (@reply_error r St EF) as (e & Hne & Hrep & ms & B).
    rewrite (Hrun r Hout), Hrep.
    destruct e as [|c e]; [contradiction|].
    eexists. split; [reflexivity|]. split; [lia|].
    exists (c :: e), ms. repeat split. exact B. }
  destruct (serve_cases henv req w)
    as [(EO & _) | [(_ & _ & resp & Hout & _ & St & _ & EF & _)
                   | (_ & d & P & J & Vd & K & Rd)]].
  - discriminate.
  - destruct (Herr resp Hout St EF) as (st' & Hout' & H).
    exists resp, st'. split; [exact Hout|]. split; [exact Hout'|].
    right. exact H.
  - destruct (relay_cases w (Handler.dispatch_answer w henv d))
      as (r & Hr & _ & HJ & [(St & _) | (St & EF)]).
    + assert (Hout : outcome w (Handler.serve henv req) = inr r).
      { unfold outcome.
        rewrite (@serve_valid_run henv req d P J Vd K Rd w). exact Hr. }
      destruct HJ as (_ & ms & B & _).
      exists r. eexists. split; [exact Hout|].
      rewrite (Hrun r Hout).
      unfold Wire.reply. rewrite B, St. cbn.
      split; [reflexivity|]. left. repeat split.
    + assert (Hout : outcome w (Handler.serve henv req) = inr r).
      { unfold outcome.
        rewrite (@serve_valid_run henv req d P J Vd K Rd w). exact Hr. }
      destruct (Herr r Hout (or_intror (or_intror St)) EF)
        as (st' & Hout' & H).
      exists r, st'. split; [exact Hout|]. split; [exact Hout'|].
      right. exact H.
Qed.

Lemma end_to_end_witness :
  exists r st',
    outcome Scenario.accepting
      (Handler.serve Scenario.configured
         (Wire.deliver
            (Form.post Scenario.form_env
               (Form.formData (Scenario.form_state "" "" "" "")))))
    = inr r /\
    outcome (Wire.browser Scenario.configured Scenario.accepting)
      (Form.handleSubmit Scenario.form_env
         (Scenario.form_state "" "" "" "")) = inr st' /\
    Handler.status r = 400 /\
    Form.submitStatus st' =
    {| Form.type := Some Form.error;
       Form.status_message := str "Missing required fields" |}.
Proof.
  destruct (@end_to_end Scenario.form_env (Scenario.form_state "" "" "" "")
              Scenario.configured Scenario.accepting eq_refl)
    as (r & st' & Hr & Hst & _).
  exists r, st'. split; [exact Hr|]. split; [exact Hst|].
  cbv in Hr. injection Hr as <-.
  cbv in Hst. injection Hst as <-.
  split; reflexivity.
Defined.

End Together.

(* ------------------------------------------------------------------ *)
(** * The character counter *)
(* ------------------------------------------------------------------ *)

Section Counter.
Import JS Eff.

(** X21.  The counter under the message field agrees with both
    validations: when it reports the message as valid, [validateForm]
    records no message error and the handler, given the body the form
    posts, never answers "Message too short"; when it does not,
    [validateForm] records "Message must be at least 10 characters long"
    unless the message is empty, in which case it records nothing. *)
Theorem counter_agrees (env : Form.ImportMetaEnv) (henv : Handler.Env)
        (st : Form.State) :
  (Form.isMessageValid st = true ->
   Form.message_error (Form.validationErrors (snd (Form.validateForm st)))
   = None /\
   forall w,
     outcome w (Handler.serve henv
                  (Wire.deliver (Form.post env (Form.formData st))))
     <> inr (Spec.error_response 400 "Message too short"
               (Some (str "Message must be at least 10 characters long"))))
  /\
  (Form.isMessageValid st = false ->
   Form.message_error (Form.validationErrors (snd (Form.validateForm st)))
   = match Form.message (Form.formData st) with
     | [] => None
     | _ :: _ => Some (str "Message must be at least 10 characters long")
     end).
Proof.
  unfold Form.isMessageValid, Form.messageLength.
  split; intros H.
  - apply Nat.leb_le in H. split.
    + unfold Form.validateForm. pose proof H as H'. apply Nat.ltb_ge in H'.
      rewrite H'. rewrite andb_false_r.
      destruct (truthy _ && negb _); reflexivity.
    + intros w. eapply never_too_short; [reflexivity | exact H].
  - unfold Form.validateForm.
    apply Nat.leb_gt, Nat.ltb_lt in H. rewrite H, andb_true_r.
    destruct (Form.message (Form.formData st)) as [|c m];
      destruct (truthy _ && negb _); reflexivity.
Qed.

Lemma counter_agrees_witness :
  Form.message_error
    (Form.validationErrors
       (snd (Form.validateForm
               (Scenario.form_state "Ada" "ada@example.com" ""
                                    "Hello, this is a test message."))))
  = None.
Proof.
  apply (proj1 (counter_agrees Scenario.form_env Scenario.configured
                  (Scenario.form_state "Ada" "ada@example.com" ""
                                       "Hello, this is a test message."))
           eq_refl).
Defined.

End Counter.

(* ------------------------------------------------------------------ *)
(** * The reply link and the subjects it cannot carry *)
(* ------------------------------------------------------------------ *)

Section ReplyLink.
Import JS Eff Handler.

Lemma code_points_plain (s : jsstring) :
  (forall c, In c s ->
             is_high_surrogate c = false /\ is_low_surrogate c = false) ->
  code_points s = Some s.
Proof.
  induction s as [|c s IH]; intros H; [reflexivity|].
  cbn [code_points].
  destruct (H c (or_introl eq_refl)) as [-> ->].
  rewrite IH; [reflexivity|]. intros c' Hin. apply H. now right.
Qed.

(** X22.  A valid submission whose subject holds an unpaired surrogate is
    not dispatched: [encodeURIComponent] throws while the mail is built,
    so under a configured key the handler, having asked the time, logs the
    error and answers 500 [{error: "Internal server error", details: "URI
    malformed"}] without calling the provider. *)
Theorem unencodable_subject_not_dispatched (env : Env) (req : Request)
        (d : ContactFormData) (s : jsstring) (w : host HandlerE) :
  method req = str "POST" -> json req = inr d ->
  Spec.valid d = true ->
  truthy (RESEND_API_KEY env) = true ->
  subject d = Some s -> code_points s = None ->
  run w (serve env req) =
  ( [ existT _ _ Now;
      existT _ _ (ConsoleError (LogProcessing (str "URI malformed"))) ],
    inr (Spec.error_response 500 "Internal server error"
           (Some (str "URI malformed"))) ).
Proof.
  intros P J V K Hs Hcp.
  destruct (valid_inv d V) as (Hname & Hemail & Hmessage & Hformat & L).
  apply (@serve_unrendered env req d P J Hname Hemail Hmessage Hformat L K w).
  unfold renders, reply_subject, or_else, encodeURIComponent. rewrite Hs.
  destruct s as [|c s]; [discriminate|]. cbn [truthy to_string].
  now rewrite Hcp.
Qed.

Lemma unencodable_subject_not_dispatched_witness :
  outcome Scenario.accepting
          (serve Scenario.configured (Scenario.post Scenario.lone)) =
  inr (Spec.error_response 500 "Internal server error"
         (Some (str "URI malformed"))).
Proof.
  unfold outcome.
  rewrite (@unencodable_subject_not_dispatched Scenario.configured
             (Scenario.post Scenario.lone) Scenario.lone [55296%N]
             Scenario.accepting eq_refl eq_refl eq_refl eq_refl eq_refl
             eq_refl).
  reflexivity.
Defined.

(** X23.  The mail of a submission can always be built when it has no
    subject, or an empty one (the reply link then carries
    [Your%20inquiry]), and when its subject holds no surrogate code unit
    at all. *)
Theorem plain_subject_renders (d : ContactFormData) :
  (truthy (subject d) = false ->
   reply_subject d = inr (str "Your%20inquiry")) /\
  (forall s,
      subject d = Some s ->
      (forall c, In c s ->
                 is_high_surrogate c = false /\ is_low_surrogate c = false) ->
      renders d = true).
Proof.
  split.
  - intros H. unfold reply_subject, or_else. rewrite H. reflexivity.
  - intros s Hs Hplain. unfold renders, reply_subject, or_else. rewrite Hs.
    destruct s as [|c s]; [reflexivity|]. cbn [truthy to_string].
    unfold encodeURIComponent. now rewrite (code_points_plain _ Hplain).
Qed.

Lemma plain_subject_renders_witness :
  reply_subject Scenario.ada = inr (str "Your%20inquiry").
Proof.
  apply (proj1 (plain_subject_renders Scenario.ada)). reflexivity.
Defined.

End ReplyLink.
